(** * Knowledge distillation: the configuration and the loss step

    A shallow embedding of the two classes of
    [knowledge_distillation_implementation_end_to_end.ipynb]:

    - [KnowledgeDistillationTrainingArguments] (the configuration extension);
    - [KnowledgeDistillationTrainer] with its [compute_loss] override;

    and of what the notebook builds around them: [compute_metrics], the
    configuration and trainer of its run, and the arithmetic of its two
    benchmark cells.

    Arithmetic is idealised: a tensor element is either a real number or
    the token [NonFinite], which stands for the floats [inf], [-inf] and
    [nan].  Rounding and overflow are not modelled.  The forward passes of
    the two networks belong to the framework; they are arbitrary
    state-passing functions that return a finite loss and finite logits,
    or raise. *)

From Stdlib Require Import String ZArith Bool Reals Lra Lia List.
Import ListNotations.
Open Scope R_scope.

Set Implicit Arguments.

(* ================================================================= *)
(** ** Exceptions and results *)

Inductive exn : Type :=
| TypeError (msg : string)
| RuntimeError (msg : string)
| OtherError (msg : string).

Inductive outcome (A : Type) : Type :=
| Ok (a : A)
| Raise (e : exn).

Arguments Ok {A} a.
Arguments Raise {A} e.

Definition outcome_bind {A B} (m : outcome A) (f : A -> outcome B) : outcome B :=
  match m with
  | Ok a => f a
  | Raise e => Raise e
  end.

Definition is_ok {A} (m : outcome A) : bool :=
  match m with Ok _ => true | Raise _ => false end.

(* ================================================================= *)
(** ** Scalars: idealised floats

    [NonFinite] stands for [inf], [-inf] and [nan] together, and every
    operation maps a non-finite operand to a non-finite result.  The
    hyperparameters and the outputs of the networks are finite, so the
    only non-finite values that arise in the loss step are the quotients
    of a division by zero and what is computed from them; PyTorch
    returns [nan] on all of these (a softmax row that holds [inf] or
    only [-inf] is [nan] throughout, and [nan] is absorbing). *)

Inductive scalar : Type :=
| Fin (r : R)
| NonFinite.

Definition fadd (a b : scalar) : scalar :=
  match a, b with
  | Fin x, Fin y => Fin (x + y)
  | _, _ => NonFinite
  end.

Definition fsub (a b : scalar) : scalar :=
  match a, b with
  | Fin x, Fin y => Fin (x - y)
  | _, _ => NonFinite
  end.

Definition fmul (a b : scalar) : scalar :=
  match a, b with
  | Fin x, Fin y => Fin (x * y)
  | _, _ => NonFinite
  end.

(** [x / 0.0] is [inf], [-inf] or [nan]: no exception is raised. *)
Definition fdiv (a b : scalar) : scalar :=
  match a, b with
  | Fin x, Fin y => if Req_dec_T y 0 then NonFinite else Fin (x / y)
  | _, _ => NonFinite
  end.

(** [x ** 2] *)
Definition fsquare (a : scalar) : scalar :=
  match a with
  | Fin x => Fin (x ^ 2)
  | NonFinite => NonFinite
  end.

Definition fexp (a : scalar) : scalar :=
  match a with
  | Fin x => Fin (exp x)
  | NonFinite => NonFinite
  end.

(** [log 0 = -inf] and [log] of a negative number is [nan]. *)
Definition flog (a : scalar) : scalar :=
  match a with
  | Fin x => if Rlt_dec 0 x then Fin (ln x) else NonFinite
  | NonFinite => NonFinite
  end.

(** [torch.xlogy x y]: [0] when [x = 0], [x * log y] otherwise. *)
Definition xlogy (x y : scalar) : scalar :=
  match x, y with
  | Fin a, Fin _ => if Req_dec_T a 0 then Fin 0 else fmul x (flog y)
  | _, _ => NonFinite
  end.

Definition fsum (l : list scalar) : scalar := fold_right fadd (Fin 0) l.

(* ================================================================= *)
(** ** Tensors

    Logits are two-dimensional, [batch x classes]: a list of rows. *)

Definition Tensor : Type := list (list scalar).

Definition of_reals (t : list (list R)) : Tensor := map (map Fin) t.

(** [t / c] for a Python number [c]. *)
Definition tensor_div (t : Tensor) (c : scalar) : Tensor :=
  map (map (fun x => fdiv x c)) t.

Definition tensor_sum (t : Tensor) : scalar := fsum (map fsum t).

Module F.

(** [F.softmax(t, dim=-1)] *)
Definition softmax_row (r : list scalar) : list scalar :=
  let e := map fexp r in
  let s := fsum e in
  map (fun x => fdiv x s) e.

Definition softmax (t : Tensor) : Tensor := map softmax_row t.

(** [F.log_softmax(t, dim=-1)] *)
Definition log_softmax_row (r : list scalar) : list scalar :=
  let s := flog (fsum (map fexp r)) in
  map (fun x => fsub x s) r.

Definition log_softmax (t : Tensor) : Tensor := map log_softmax_row t.

End F.

(** Pointwise operations broadcast: a dimension of size one is repeated
    to the size of the other operand, any other difference raises. *)
Fixpoint zip_with {A B C} (f : A -> B -> outcome C) (xs : list A) (ys : list B)
  : outcome (list C) :=
  match xs, ys with
  | [], [] => Ok []
  | x :: xs', y :: ys' =>
      outcome_bind (f x y) (fun c =>
      outcome_bind (zip_with f xs' ys') (fun cs => Ok (c :: cs)))
  | _, _ => Raise (RuntimeError "The size of tensor a must match the size of tensor b")
  end.

Definition expand {A} (xs : list A) (n : nat) : list A :=
  match xs with
  | [x] => repeat x n
  | _ => xs
  end.

Definition broadcast {A B C} (f : A -> B -> outcome C) (xs : list A) (ys : list B)
  : outcome (list C) :=
  zip_with f (expand xs (length ys)) (expand ys (length xs)).

Definition broadcast2 (f : scalar -> scalar -> scalar) (a b : Tensor) : outcome Tensor :=
  broadcast (broadcast (fun x y => Ok (f x y))) a b.

Module nn.

(** [nn.KLDivLoss(reduction="batchmean")(input, target)]: the pointwise
    loss is [xlogy(target, target) - target * input], summed over all
    elements and divided by [input.size(0)]. *)
Definition KLDivLoss_batchmean (input target : Tensor) : outcome scalar :=
  outcome_bind (broadcast2 fmul target input) (fun prod =>
  outcome_bind (broadcast2 fsub (map (map (fun t => xlogy t t)) target) prod) (fun pointwise =>
  Ok (fdiv (tensor_sum pointwise) (Fin (INR (length input)))))).

End nn.

(* ================================================================= *)
(** ** Framework objects: batches, networks, the mutable world *)

(** A batch as the data collator produces it; [labels] is absent when
    the dataset has no label column. *)
Record Batch : Type := {
  input_ids : list (list Z);
  attention_mask : list (list Z);
  labels : option (list Z)
}.

Definition with_labels (b : Batch) (l : list Z) : Batch :=
  {| input_ids := input_ids b;
     attention_mask := attention_mask b;
     labels := Some l |}.

(** What a sequence classifier returns: [loss] is [None] when the batch
    carries no labels. *)
Record ModelOutput : Type := {
  loss : option R;
  logits : list (list R)
}.

(** The mutable part of a network: trainable weights, and the buffers a
    train-mode forward pass may touch. *)
Record ModuleState : Type := {
  parameters : list R;
  buffers : list R;
  training : bool
}.

(** State of the random number generator (dropout draws from it). *)
Definition Generator : Type := Z.

(** A network is its forward function; calling it may raise, and may
    change the network's own state and advance the generator. *)
Definition NNModule : Type :=
  ModuleState -> Generator -> Batch -> outcome ModelOutput * ModuleState * Generator.

(** Student and teacher are distinct objects, as in the notebook, where
    each is loaded from its own checkpoint. *)
Record World : Type := {
  student : ModuleState;
  teacher : ModuleState;
  generator : Generator
}.

(** State and exceptions. *)
Definition M (A : Type) : Type := World -> outcome A * World.

Definition ret {A} (a : A) : M A := fun w => (Ok a, w).

Definition raise {A} (e : exn) : M A := fun w => (Raise e, w).

Definition bind {A B} (m : M A) (f : A -> M B) : M B :=
  fun w =>
    match m w with
    | (Ok a, w') => f a w'
    | (Raise e, w') => (Raise e, w')
    end.

Definition lift {A} (r : outcome A) : M A := fun w => (r, w).

Notation "x <- m ;; k" := (bind m (fun x => k))
  (at level 61, m at next level, right associativity).

(** The student forward pass: [model] called on the unpacked [inputs]. *)
Definition call_student (model : NNModule) (inputs : Batch) : M ModelOutput :=
  fun w =>
    let '(r, s', g') := model (student w) (generator w) inputs in
    (r, {| student := s'; teacher := teacher w; generator := g' |}).

(** [self.teacher_model] called on the unpacked [inputs]; calling [None] is a [TypeError]. *)
Definition call_teacher (teacher_model : option NNModule) (inputs : Batch) : M ModelOutput :=
  match teacher_model with
  | None => raise (TypeError "'NoneType' object is not callable")
  | Some tm =>
      fun w =>
        let '(r, t', g') := tm (teacher w) (generator w) inputs in
        (r, {| student := student w; teacher := t'; generator := g' |})
  end.

(** A keyword argument with a default value. *)
Definition kwarg {A} (default : A) (supplied : option A) : A :=
  match supplied with
  | Some v => v
  | None => default
  end.

(* ================================================================= *)
(** ** The configuration extension *)

(** The fields of the base [TrainingArguments] the notebook sets. *)
Record TrainingArguments : Type := {
  output_dir : string;
  evaluation_strategy : string;
  num_train_epochs : nat;
  learning_rate : R;
  per_device_train_batch_size : nat;
  per_device_eval_batch_size : nat;
  weight_decay : R
}.

Record KnowledgeDistillationTrainingArguments : Type := {
  base : TrainingArguments;
  alpha : R;
  temperature : R
}.

(** The constructor, with keyword arguments [alpha=0.5] and [temperature=2.0].
    [super_init] is the result of the call of the base constructor on the forwarded arguments. *)
Definition KnowledgeDistillationTrainingArguments_init
    (super_init : outcome TrainingArguments)
    (alpha temperature : option R)
  : outcome KnowledgeDistillationTrainingArguments :=
  outcome_bind super_init (fun self_base =>
  Ok {| base := self_base;
        alpha := kwarg 0.5 alpha;
        temperature := kwarg 2.0 temperature |}).

(* ================================================================= *)
(** ** The trainer and its loss step *)

Record KnowledgeDistillationTrainer : Type := {
  args : KnowledgeDistillationTrainingArguments;
  teacher_model : option NNModule
}.

(** The constructor, with keyword argument [teacher_model=None]. *)
Definition KnowledgeDistillationTrainer_init
    (training_args : KnowledgeDistillationTrainingArguments)
    (teacher_model : option (option NNModule))
  : KnowledgeDistillationTrainer :=
  {| args := training_args;
     teacher_model := kwarg None teacher_model |}.

(** What [compute_loss] returns: [loss], or [(loss, outputs_student)]. *)
Inductive LossResult : Type :=
| LossOnly (l : scalar)
| LossAndOutputs (l : scalar) (outputs : ModelOutput).

Definition returned_loss (r : LossResult) : scalar :=
  match r with
  | LossOnly l => l
  | LossAndOutputs l _ => l
  end.

(** [self.args.alpha * loss_ce]: multiplying by [None] is a [TypeError]. *)
Definition mul_optional (a : scalar) (x : option R) : outcome scalar :=
  match x with
  | Some v => Ok (fmul a (Fin v))
  | None => Raise (TypeError "unsupported operand type(s) for *: 'float' and 'NoneType'")
  end.

Definition compute_loss (self : KnowledgeDistillationTrainer) (model : NNModule)
    (inputs : Batch) (return_outputs : bool) : M LossResult :=
  outputs_student <- call_student model inputs ;;
  let loss_ce := loss outputs_student in
  let logits_student := of_reals (logits outputs_student) in
  outputs_teacher <- call_teacher (teacher_model self) inputs ;;
  let logits_teacher := of_reals (logits outputs_teacher) in
  let T := Fin (temperature (args self)) in
  kl <- lift (nn.KLDivLoss_batchmean
                (F.log_softmax (tensor_div logits_student T))
                (F.softmax (tensor_div logits_teacher T))) ;;
  let loss_kd := fmul (fsquare T) kl in
  weighted_ce <- lift (mul_optional (Fin (alpha (args self))) loss_ce) ;;
  let loss := fadd weighted_ce (fmul (fsub (Fin 1) (Fin (alpha (args self)))) loss_kd) in
  ret (if return_outputs then LossAndOutputs loss outputs_student else LossOnly loss).

(** The divergence term of the loss step: what [loss_fct] is applied to
    in [compute_loss], for a temperature [T] and the logits of the
    student and of the teacher. *)
Definition distillation_divergence (T : R) (logits_student logits_teacher : list (list R))
  : outcome scalar :=
  nn.KLDivLoss_batchmean
    (F.log_softmax (tensor_div (of_reals logits_student) (Fin T)))
    (F.softmax (tensor_div (of_reals logits_teacher) (Fin T))).

(* ================================================================= *)
(** ** Lists, shapes and the real-valued counterparts *)

Definition Rsum (l : list R) : R := fold_right Rplus 0 l.

Definition map2 {A B C} (f : A -> B -> C) (xs : list A) (ys : list B) : list C :=
  map (fun p => f (fst p) (snd p)) (combine xs ys).

(** Two tensors have the same shape when they have as many rows and
    corresponding rows have the same length. *)
Definition same_shape {A B} (a : list (list A)) (b : list (list B)) : Prop :=
  Forall2 (fun r r' => length r = length r') a b.

Definition sum_exp (r : list R) : R := Rsum (map exp r).

Definition softmax_R (r : list R) : list R :=
  map (fun x => exp x / sum_exp r) r.

Definition log_softmax_R (r : list R) : list R :=
  map (fun x => x - ln (sum_exp r)) r.

(** The pointwise loss of [nn.KLDivLoss] for a target [t] and an input
    [i], and the same over the reals. *)
Definition kl_pointwise (t i : scalar) : scalar := fsub (xlogy t t) (fmul t i).

Definition kl_pointwise_R (p x : R) : R := p * ln p - p * x.

(* ================================================================= *)
(** ** The loss as the specification words it

    These follow the sentences of the specification and are compared
    with the code below: the distribution softened by a temperature, the
    Kullback-Leibler divergence of the teacher's distribution [P] from
    the student's distribution [Q], its mean over the batch, the blended
    loss, and the domain of the two hyperparameters. *)

Definition softened (T : R) (t : list (list R)) : list (list R) :=
  map (fun r => softmax_R (map (fun x => x / T) r)) t.

Definition kl_divergence (P Q : list R) : R :=
  Rsum (map2 (fun p q => p * ln (p / q)) P Q).

Definition kl_batchmean (P Q : list (list R)) : R :=
  Rsum (map2 kl_divergence P Q) / INR (length Q).

(** [alpha * L_ce + (1 - alpha) * T^2 * D] *)
Definition blended_loss (alpha T L_ce : R) (D : scalar) : scalar :=
  match D with
  | Fin d => Fin (alpha * L_ce + (1 - alpha) * T ^ 2 * d)
  | NonFinite => NonFinite
  end.

Definition hyperparameter_domain (alpha T : R) : Prop :=
  0 <= alpha <= 1 /\ 0 < T.

(* ================================================================= *)
(** ** Contracts of the framework's forward pass *)

(** Both forward passes succeed on [inputs] from world [w]: the student
    returns [os], then the teacher returns [ot], and the world is [w']. *)
Definition forward_passes (self : KnowledgeDistillationTrainer) (model : NNModule)
    (inputs : Batch) (w : World) (os ot : ModelOutput) (w' : World) : Prop :=
  exists tm s' g' t' g'',
    teacher_model self = Some tm /\
    model (student w) (generator w) inputs = (Ok os, s', g') /\
    tm (teacher w) g' inputs = (Ok ot, t', g'') /\
    w' = {| student := s'; teacher := t'; generator := g'' |}.

(** A forward pass never writes to the weights. *)
Definition preserves_parameters (m : NNModule) : Prop :=
  forall st g b, parameters (snd (fst (m st g b))) = parameters st.

Definition loss_of (r : outcome LossResult) : outcome scalar :=
  match r with
  | Ok x => Ok (returned_loss x)
  | Raise e => Raise e
  end.

(* ================================================================= *)
(** ** Sample networks and sample data *)

(** Mean cross-entropy of the rows of [lg] against the labels [ys]. *)
Definition cross_entropy (lg : list (list R)) (ys : list Z) : R :=
  Rsum (map2 (fun row y => - nth (Z.to_nat y) (log_softmax_R row) 0) lg ys)
  / INR (length lg).

(** A classifier whose logits are fixed; a forward pass appends to its
    buffers and advances the generator. *)
Definition fixed_classifier (lg : list (list R)) : NNModule :=
  fun st g b =>
    (Ok {| loss := option_map (cross_entropy lg) (labels b); logits := lg |},
     {| parameters := parameters st;
        buffers := 1 :: buffers st;
        training := training st |},
     (g + 1)%Z).

(** A classifier with fixed logits that rejects a label outside its
    classes, as the cross-entropy of the framework does. *)
Definition validating_classifier (lg : list (list R)) : NNModule :=
  fun st g b =>
    let st' := {| parameters := parameters st;
                  buffers := 1 :: buffers st;
                  training := training st |} in
    match labels b with
    | Some ys =>
        if forallb (fun y => (0 <=? y)%Z && (y <? Z.of_nat (length (hd [] lg)))%Z) ys
        then (Ok {| loss := Some (cross_entropy lg ys); logits := lg |}, st', (g + 1)%Z)
        else (Raise (OtherError "IndexError: Target is out of bounds"), st', (g + 1)%Z)
    | None => (Ok {| loss := None; logits := lg |}, st', (g + 1)%Z)
    end.

Definition sample_batch : Batch :=
  {| input_ids := [[101; 2054; 102]%Z];
     attention_mask := [[1; 1; 1]%Z];
     labels := Some [2%Z] |}.

Definition uniform_logits : list (list R) := [[0; 0; 0; 0; 0]].

Definition sample_state : ModuleState :=
  {| parameters := [1; 2]; buffers := []; training := true |}.

Definition sample_world : World :=
  {| student := sample_state; teacher := sample_state; generator := 42%Z |}.

Definition sample_base : TrainingArguments :=
  {| output_dir := "distilbert-base-uncased-finetuned-clinc-student";
     evaluation_strategy := "epoch";
     num_train_epochs := 1;
     learning_rate := 2 / 100000;
     per_device_train_batch_size := 48;
     per_device_eval_batch_size := 48;
     weight_decay := 1 / 100 |}.

Definition sample_args (a T : R) : KnowledgeDistillationTrainingArguments :=
  {| base := sample_base; alpha := a; temperature := T |}.

Definition sample_trainer (a T : R) (lg : list (list R)) : KnowledgeDistillationTrainer :=
  KnowledgeDistillationTrainer_init (sample_args a T) (Some (Some (fixed_classifier lg))).

Definition peaked_logits : list (list R) := [[4; 0; 0; 0; 0]].

(** What [fixed_classifier lg] returns on [b], and the world after the
    student and the teacher have each run once from [sample_world]. *)
Definition sample_outputs (lg : list (list R)) (b : Batch) : ModelOutput :=
  {| loss := option_map (cross_entropy lg) (labels b); logits := lg |}.

Definition sample_state_after : ModuleState :=
  {| parameters := [1; 2]; buffers := [1]; training := true |}.

Definition sample_world_after : World :=
  {| student := sample_state_after; teacher := sample_state_after; generator := 44%Z |}.

(* ================================================================= *)
(** ** The evaluation metric

    [compute_metrics] takes the logits of the evaluation set and the
    labels, predicts the class of largest logit for each example, and
    returns the accuracy metric's dictionary. *)

(** The first index of a maximal entry among [r], continuing from a
    best value [best] found at index [best_i]; [i] is the index of the
    head of [r]. *)
Fixpoint argmax_from (best : R) (best_i i : nat) (r : list R) : nat :=
  match r with
  | [] => best_i
  | x :: r' =>
      if Rlt_dec best x
      then argmax_from x i (S i) r'
      else argmax_from best best_i (S i) r'
  end.

(** [np.argmax] along an axis of length zero is a [ValueError]. *)
Definition argmax (r : list R) : outcome nat :=
  match r with
  | [] => Raise (OtherError "ValueError: attempt to get argmax of an empty sequence")
  | x :: r' => Ok (argmax_from x 0 1 r')
  end.

Fixpoint mapM {A B} (f : A -> outcome B) (l : list A) : outcome (list B) :=
  match l with
  | [] => Ok []
  | x :: l' =>
      outcome_bind (f x) (fun y =>
      outcome_bind (mapM f l') (fun ys => Ok (y :: ys)))
  end.

(** [np.argmax(predictions, axis=1)] *)
Definition argmax_axis1 (predictions : list (list R)) : outcome (list nat) :=
  mapM argmax predictions.

Definition prediction_matches (pr : nat * Z) : bool :=
  (Z.of_nat (fst pr) =? snd pr)%Z.

(** The number of positions at which prediction and reference agree. *)
Definition count_matches (predictions : list nat) (references : list Z) : nat :=
  length (filter prediction_matches (combine predictions references)).

(** The metric stores predictions and references as 32-bit integers. *)
Definition int32 (z : Z) : bool :=
  (-2147483648 <=? z)%Z && (z <=? 2147483647)%Z.

(** [accuracy_score.compute(predictions=..., references=...)]: the
    fraction of agreeing positions under the key ["accuracy"]; columns
    of different lengths are a [ValueError], and so is a value that
    does not fit the metric's 32-bit columns.  With no example at all
    the mean is that of an empty slice. *)
Definition accuracy_score_compute (predictions : list nat) (references : list Z)
  : outcome (list (string * scalar)) :=
  if (length predictions =? length references)%nat
  then
    if forallb (fun j => int32 (Z.of_nat j)) predictions && forallb int32 references
    then Ok [("accuracy"%string,
              fdiv (Fin (INR (count_matches predictions references)))
                   (Fin (INR (length predictions))))]
    else Raise (OtherError "ValueError: Predictions and/or references don't match the expected format")
  else Raise (OtherError "ValueError: Mismatch in the number of predictions and references").

Definition compute_metrics (pred : list (list R) * list Z)
  : outcome (list (string * scalar)) :=
  let '(predictions, labels) := pred in
  outcome_bind (argmax_axis1 predictions) (fun predictions =>
  accuracy_score_compute predictions labels).

(* ================================================================= *)
(** ** The notebook's run and its benchmark arithmetic *)

Definition batch_size : nat := 48.

Definition finetuned_student_ckpt : string :=
  "distilbert-base-uncased-finetuned-clinc-student".

(** The configuration of the notebook's run, the base constructor
    having accepted its arguments: [alpha=1], no [temperature]. *)
Definition student_training_args : outcome KnowledgeDistillationTrainingArguments :=
  KnowledgeDistillationTrainingArguments_init
    (Ok {| output_dir := finetuned_student_ckpt;
           evaluation_strategy := "epoch";
           num_train_epochs := 1;
           learning_rate := 2e-5;
           per_device_train_batch_size := batch_size;
           per_device_eval_batch_size := batch_size;
           weight_decay := 0.01 |})
    (Some 1) None.

(** The trainer of the notebook's run, for the loaded teacher. *)
Definition distilbert_trainer (training_args : KnowledgeDistillationTrainingArguments)
    (teacher_model : NNModule) : KnowledgeDistillationTrainer :=
  KnowledgeDistillationTrainer_init training_args (Some (Some teacher_model)).

(** Python's [a / b] on numbers. *)
Definition py_div (a b : R) : outcome R :=
  if Req_dec_T b 0
  then Raise (OtherError "ZeroDivisionError: division by zero")
  else Ok (a / b).

(** [decrease], as printed: times one hundred. *)
Definition decrease (student_model_parameters teacher_model_parameters : Z) : outcome R :=
  outcome_bind
    (py_div (IZR (student_model_parameters - teacher_model_parameters))
            (IZR teacher_model_parameters))
    (fun decrease => Ok (decrease * 100)).

(** [decrease_in_time], as printed: times one hundred. *)
Definition decrease_in_time (total_time_teacher_model total_time_student_model : R)
  : outcome R :=
  outcome_bind
    (py_div (total_time_teacher_model - total_time_student_model)
            total_time_teacher_model)
    (fun decrease_in_time => Ok (decrease_in_time * 100)).

(** A network on which the forward pass raises whatever the batch. *)
Definition failing_network (e : exn) : NNModule :=
  fun st g b => (Raise e, st, (g + 1)%Z).

Definition sharp_logits : list (list R) := [[1; 3; 2]; [5; 5; 0]].

(** A teacher with a single logit per example. *)
Definition single_logit : list (list R) := [[7]].



(* ================================================================= *)
(** ** Lists and broadcasting *)

Lemma map2_cons {A B C} (f : A -> B -> C) x xs y ys :
  map2 f (x :: xs) (y :: ys) = f x y :: map2 f xs ys.
Proof. reflexivity. Qed.

Lemma map2_length {A B C} (f : A -> B -> C) xs ys :
  length xs = length ys -> length (map2 f xs ys) = length xs.
Proof.
  intros H. unfold map2. rewrite length_map, length_combine, <- H.
  apply Nat.min_id.
Qed.

Lemma map2_map_l {A A' B C} (f : A' -> B -> C) (h : A -> A') xs ys :
  map2 f (map h xs) ys = map2 (fun x y => f (h x) y) xs ys.
Proof.
  revert ys. induction xs as [|x xs IH]; intros [|y ys]; try reflexivity.
  simpl map. rewrite !map2_cons, IH. reflexivity.
Qed.

Lemma map2_map_r {A B B' C} (f : A -> B' -> C) (h : B -> B') xs ys :
  map2 f xs (map h ys) = map2 (fun x y => f x (h y)) xs ys.
Proof.
  revert ys. induction xs as [|x xs IH]; intros [|y ys]; try reflexivity.
  simpl map. rewrite !map2_cons, IH. reflexivity.
Qed.

Lemma map2_same {A C} (f : A -> A -> C) xs :
  map2 f xs xs = map (fun x => f x x) xs.
Proof.
  induction xs as [|x xs IH]; [reflexivity|].
  rewrite map2_cons, IH. reflexivity.
Qed.

Lemma Forall2_same_length {A B} (P : A -> B -> Prop) xs ys :
  Forall2 P xs ys -> length xs = length ys.
Proof. induction 1; simpl; congruence. Qed.

Lemma expand_same_length {A} (xs : list A) n :
  length xs = n -> expand xs n = xs.
Proof.
  intros <-. destruct xs as [|x [|x' xs]]; reflexivity.
Qed.

Lemma zip_with_ok {A B C} (F : A -> B -> outcome C) (G : A -> B -> C) xs ys :
  Forall2 (fun x y => F x y = Ok (G x y)) xs ys ->
  zip_with F xs ys = Ok (map2 G xs ys).
Proof.
  induction 1 as [|x y xs ys Hxy _ IH]; [reflexivity|].
  simpl. rewrite Hxy, IH. reflexivity.
Qed.

Lemma broadcast_ok {A B C} (F : A -> B -> outcome C) (G : A -> B -> C) xs ys :
  Forall2 (fun x y => F x y = Ok (G x y)) xs ys ->
  broadcast F xs ys = Ok (map2 G xs ys).
Proof.
  intros H. unfold broadcast.
  pose proof (Forall2_same_length H) as Hlen.
  rewrite !expand_same_length by congruence.
  now apply zip_with_ok.
Qed.

Lemma Forall2_all {A B} (P : A -> B -> Prop) xs ys :
  length xs = length ys -> (forall x y, P x y) -> Forall2 P xs ys.
Proof.
  revert ys. induction xs as [|x xs IH]; intros [|y ys] Hlen HP;
    simpl in Hlen; try discriminate; constructor; auto.
Qed.

Lemma broadcast2_same_shape (f : scalar -> scalar -> scalar) (a b : Tensor) :
  same_shape a b -> broadcast2 f a b = Ok (map2 (map2 f) a b).
Proof.
  intros H. unfold broadcast2. apply broadcast_ok.
  eapply Forall2_impl; [|exact H].
  intros r r' Hlen. simpl in Hlen. apply broadcast_ok.
  now apply Forall2_all.
Qed.

Lemma same_shape_refl {A} (a : list (list A)) : same_shape a a.
Proof. induction a; constructor; auto. Qed.

Lemma same_shape_sym {A B} (a : list (list A)) (b : list (list B)) :
  same_shape a b -> same_shape b a.
Proof. induction 1; constructor; auto. Qed.

Lemma same_shape_map_l {A A' B} (h : list A -> list A') (a : list (list A)) (b : list (list B)) :
  (forall r, length (h r) = length r) ->
  same_shape a b -> same_shape (map h a) b.
Proof.
  intros Hh. induction 1; simpl; constructor; auto. rewrite Hh. assumption.
Qed.

Lemma same_shape_map_r {A B B'} (h : list B -> list B') (a : list (list A)) (b : list (list B)) :
  (forall r, length (h r) = length r) ->
  same_shape a b -> same_shape a (map h b).
Proof.
  intros Hh H. apply same_shape_sym, same_shape_map_l; auto using same_shape_sym.
Qed.

Lemma same_shape_map2_r {A B C} (f : A -> B -> C) (a : list (list A)) (b : list (list B)) :
  same_shape a b -> same_shape a (map2 (map2 f) a b).
Proof.
  induction 1 as [|r r' a b Hr _ IH]; [constructor|].
  rewrite map2_cons. constructor; auto.
  rewrite map2_length; auto.
Qed.

Lemma same_shape_map_map_l {A A' B} (h : A -> A') (a : list (list A)) (b : list (list B)) :
  same_shape a b -> same_shape (map (map h) a) b.
Proof. apply same_shape_map_l. intros. apply length_map. Qed.

Lemma same_shape_map_map_r {A B B'} (h : B -> B') (a : list (list A)) (b : list (list B)) :
  same_shape a b -> same_shape a (map (map h) b).
Proof. apply same_shape_map_r. intros. apply length_map. Qed.

Create HintDb shape.
#[local] Hint Resolve same_shape_refl same_shape_sym same_shape_map2_r
  same_shape_map_map_l same_shape_map_map_r : shape.

(* ================================================================= *)
(** ** Finite arithmetic *)

Lemma fdiv_fin x y : y <> 0 -> fdiv (Fin x) (Fin y) = Fin (x / y).
Proof. intros Hy. unfold fdiv. destruct (Req_dec_T y 0); [contradiction|reflexivity]. Qed.

Lemma fdiv_zero x : fdiv x (Fin 0) = NonFinite.
Proof.
  destruct x as [x|]; [|reflexivity].
  unfold fdiv. destruct (Req_dec_T 0 0); [reflexivity|contradiction].
Qed.

Lemma flog_fin x : 0 < x -> flog (Fin x) = Fin (ln x).
Proof. intros Hx. unfold flog. destruct (Rlt_dec 0 x); [reflexivity|contradiction]. Qed.

Lemma xlogy_fin p : 0 < p -> xlogy (Fin p) (Fin p) = Fin (p * ln p).
Proof.
  intros Hp. unfold xlogy.
  destruct (Req_dec_T p 0) as [E|_]; [lra|].
  rewrite flog_fin by assumption. reflexivity.
Qed.

Lemma fsum_fin l : fsum (map Fin l) = Fin (Rsum l).
Proof.
  unfold fsum, Rsum. induction l as [|x l IH]; [reflexivity|].
  simpl. rewrite IH. reflexivity.
Qed.

Lemma tensor_sum_fin t : tensor_sum (of_reals t) = Fin (Rsum (map Rsum t)).
Proof.
  unfold tensor_sum, of_reals. rewrite map_map.
  rewrite (map_ext _ (fun r => Fin (Rsum r))) by (intros; apply fsum_fin).
  rewrite <- (map_map Rsum Fin). apply fsum_fin.
Qed.

Lemma sum_exp_pos r : r <> [] -> 0 < sum_exp r.
Proof.
  unfold sum_exp, Rsum. induction r as [|x r IH]; [congruence|]. intros _.
  simpl. pose proof (exp_pos x).
  destruct r as [|y r]; [simpl; lra|].
  assert (0 < fold_right Rplus 0 (map exp (y :: r))) by (apply IH; discriminate).
  lra.
Qed.

Lemma softmax_row_fin r : F.softmax_row (map Fin r) = map Fin (softmax_R r).
Proof.
  unfold F.softmax_row, softmax_R.
  rewrite !map_map. simpl.
  rewrite <- (map_map exp Fin), fsum_fin. fold (sum_exp r).
  apply map_ext_in. intros x Hx.
  apply fdiv_fin.
  assert (0 < sum_exp r) by (apply sum_exp_pos; intros ->; inversion Hx).
  lra.
Qed.

Lemma log_softmax_row_fin r : F.log_softmax_row (map Fin r) = map Fin (log_softmax_R r).
Proof.
  unfold F.log_softmax_row, log_softmax_R.
  rewrite !map_map. simpl.
  rewrite <- (map_map exp Fin), fsum_fin. fold (sum_exp r).
  apply map_ext_in. intros x Hx.
  rewrite flog_fin; [reflexivity|].
  apply sum_exp_pos. intros ->. inversion Hx.
Qed.

Lemma softmax_fin t : F.softmax (of_reals t) = of_reals (map softmax_R t).
Proof.
  unfold F.softmax, of_reals. rewrite !map_map.
  apply map_ext. intros r. apply softmax_row_fin.
Qed.

Lemma log_softmax_fin t : F.log_softmax (of_reals t) = of_reals (map log_softmax_R t).
Proof.
  unfold F.log_softmax, of_reals. rewrite !map_map.
  apply map_ext. intros r. apply log_softmax_row_fin.
Qed.

Lemma softmax_R_pos r : Forall (fun p => 0 < p) (softmax_R r).
Proof.
  unfold softmax_R. apply Forall_forall. intros p Hp.
  apply in_map_iff in Hp. destruct Hp as [x [<- Hx]].
  assert (0 < sum_exp r) by (apply sum_exp_pos; intros ->; inversion Hx).
  apply Rdiv_lt_0_compat; [apply exp_pos|assumption].
Qed.

Lemma softmax_R_length r : length (softmax_R r) = length r.
Proof. unfold softmax_R. apply length_map. Qed.

Lemma log_softmax_R_length r : length (log_softmax_R r) = length r.
Proof. unfold log_softmax_R. apply length_map. Qed.

Lemma same_shape_softmax_R {B} a (b : list (list B)) :
  same_shape a b -> same_shape (map softmax_R a) b.
Proof. apply same_shape_map_l, softmax_R_length. Qed.

Lemma same_shape_log_softmax_R {A} (a : list (list A)) b :
  same_shape a b -> same_shape a (map log_softmax_R b).
Proof. apply same_shape_map_r, log_softmax_R_length. Qed.

#[local] Hint Resolve same_shape_softmax_R same_shape_log_softmax_R : shape.

(* ================================================================= *)
(** ** The divergence computed by the loss function *)

Lemma map2_nil_r {A B C} (f : A -> B -> C) xs : map2 f xs [] = [].
Proof. destruct xs; reflexivity. Qed.

Lemma map2_ext {A B C} (f g : A -> B -> C) xs ys :
  (forall x y, f x y = g x y) -> map2 f xs ys = map2 g xs ys.
Proof.
  intros H. unfold map2. apply map_ext. intros [x y]. apply H.
Qed.

Lemma map2_ext_Forall_l {A B C} (f g : A -> B -> C) xs ys :
  Forall (fun x => forall y, f x y = g x y) xs -> map2 f xs ys = map2 g xs ys.
Proof.
  intros H. revert ys. induction H as [|x xs Hx _ IH]; intros [|y ys]; try reflexivity.
  rewrite !map2_cons, Hx, IH. reflexivity.
Qed.

Lemma map_map2 {A B C D} (h : C -> D) (f : A -> B -> C) xs ys :
  map h (map2 f xs ys) = map2 (fun x y => h (f x y)) xs ys.
Proof. unfold map2. rewrite map_map. reflexivity. Qed.

Lemma map2_fuse {A A' B C D} (g : A' -> C -> D) (h : A -> A') (k : A -> B -> C) xs ys :
  map2 g (map h xs) (map2 k xs ys) = map2 (fun x y => g (h x) (k x y)) xs ys.
Proof.
  revert ys. induction xs as [|x xs IH]; intros [|y ys]; try reflexivity.
  simpl map. rewrite !map2_cons, IH. reflexivity.
Qed.

Lemma KLDivLoss_same_shape (input target : Tensor) :
  same_shape target input ->
  nn.KLDivLoss_batchmean input target =
  Ok (fdiv (tensor_sum (map2 (map2 kl_pointwise) target input))
           (Fin (INR (length input)))).
Proof.
  intros H. unfold nn.KLDivLoss_batchmean.
  rewrite (broadcast2_same_shape fmul H). simpl outcome_bind.
  rewrite broadcast2_same_shape.
  - simpl outcome_bind. do 3 f_equal.
    rewrite map2_fuse. apply map2_ext. intros r r'.
    rewrite map2_fuse. reflexivity.
  - apply same_shape_map_l; [intros; apply length_map|].
    now apply same_shape_map2_r.
Qed.

Lemma kl_pointwise_row_fin pr xr :
  Forall (fun p => 0 < p) pr ->
  map2 kl_pointwise (map Fin pr) (map Fin xr) = map Fin (map2 kl_pointwise_R pr xr).
Proof.
  intros H. rewrite map2_map_l, map2_map_r, map_map2.
  apply map2_ext_Forall_l.
  eapply Forall_impl; [|exact H]. intros p Hp x. simpl in Hp.
  unfold kl_pointwise, kl_pointwise_R. rewrite xlogy_fin by assumption. reflexivity.
Qed.

Lemma kl_pointwise_fin P X :
  Forall (Forall (fun p => 0 < p)) P ->
  map2 (map2 kl_pointwise) (of_reals P) (of_reals X) =
  of_reals (map2 (map2 kl_pointwise_R) P X).
Proof.
  intros H. unfold of_reals. rewrite map2_map_l, map2_map_r, map_map2.
  apply map2_ext_Forall_l.
  eapply Forall_impl; [|exact H]. intros pr Hpr xr. simpl in Hpr.
  now apply kl_pointwise_row_fin.
Qed.

Lemma ln_quotient p a S :
  0 < p -> 0 < S -> ln (p / (exp a / S)) = ln p - (a - ln S).
Proof.
  intros Hp HS.
  assert (Hq : 0 < exp a / S) by (apply Rdiv_lt_0_compat; [apply exp_pos|assumption]).
  unfold Rdiv at 1. rewrite ln_mult; [|assumption|now apply Rinv_0_lt_compat].
  rewrite ln_Rinv by assumption.
  unfold Rdiv. rewrite ln_mult; [|apply exp_pos|now apply Rinv_0_lt_compat].
  rewrite ln_Rinv by assumption. rewrite ln_exp. lra.
Qed.

Lemma kl_row pr s :
  Forall (fun p => 0 < p) pr ->
  Rsum (map2 kl_pointwise_R pr (log_softmax_R s)) = kl_divergence pr (softmax_R s).
Proof.
  intros H. unfold kl_divergence, log_softmax_R, softmax_R. f_equal.
  destruct s as [|a s]; [simpl; now rewrite !map2_nil_r|].
  assert (HS : 0 < sum_exp (a :: s)) by (apply sum_exp_pos; discriminate).
  rewrite !map2_map_r. apply map2_ext_Forall_l.
  eapply Forall_impl; [|exact H]. intros p Hp y. simpl in Hp.
  unfold kl_pointwise_R. rewrite ln_quotient by assumption. lra.
Qed.

Lemma kl_rows LT LS :
  map Rsum (map2 (map2 kl_pointwise_R) (map softmax_R LT) (map log_softmax_R LS)) =
  map2 kl_divergence (map softmax_R LT) (map softmax_R LS).
Proof.
  rewrite map_map2, !map2_map_l, !map2_map_r.
  apply map2_ext. intros t s. apply kl_row, softmax_R_pos.
Qed.

Lemma softened_eq T t : softened T t = map softmax_R (map (map (fun x => x / T)) t).
Proof. unfold softened. now rewrite map_map. Qed.

Lemma softened_length T t : length (softened T t) = length t.
Proof. unfold softened. apply length_map. Qed.

(** The value of the divergence term on logits of one shape, for a
    temperature that is not zero. *)
Section NonZeroTemperature.

Variable T : R.
Hypothesis T_nonzero : T <> 0.

Lemma tensor_div_fin t :
  tensor_div (of_reals t) (Fin T) = of_reals (map (map (fun x => x / T)) t).
Proof.
  unfold tensor_div, of_reals. rewrite !map_map.
  apply map_ext. intros r. rewrite !map_map.
  apply map_ext. intros x. now apply fdiv_fin.
Qed.

Lemma divergence_value ls lt :
  same_shape ls lt ->
  distillation_divergence T ls lt =
  Ok (fdiv (Fin (Rsum (map2 kl_divergence (softened T lt) (softened T ls))))
           (Fin (INR (length ls)))).
Proof.
  intros Hshape. unfold distillation_divergence.
  rewrite !tensor_div_fin.
  rewrite softmax_fin, log_softmax_fin.
  rewrite KLDivLoss_same_shape.
  - rewrite kl_pointwise_fin.
    + rewrite tensor_sum_fin, kl_rows, !softened_eq.
      unfold of_reals. rewrite !length_map. reflexivity.
    + apply Forall_forall. intros r Hr.
      apply in_map_iff in Hr. destruct Hr as [r0 [<- _]]. apply softmax_R_pos.
  - unfold of_reals. auto 10 with shape.
Qed.

Lemma divergence_finite ls lt :
  same_shape ls lt -> ls <> [] ->
  distillation_divergence T ls lt =
  Ok (Fin (kl_batchmean (softened T lt) (softened T ls))).
Proof.
  intros Hshape Hne. rewrite divergence_value by assumption.
  rewrite fdiv_fin.
  - unfold kl_batchmean. now rewrite softened_length.
  - apply not_0_INR. destruct ls; [congruence|discriminate].
Qed.

End NonZeroTemperature.

(* ================================================================= *)
(** ** Running the loss step *)

Lemma blend_eq a T L D :
  fadd (fmul (Fin a) (Fin L)) (fmul (fsub (Fin 1) (Fin a)) (fmul (fsquare (Fin T)) D)) =
  blended_loss a T L D.
Proof.
  destruct D as [d|]; simpl; [|reflexivity].
  f_equal. ring.
Qed.

(** Closes a goal on the returned loss once the divergence and the
    student's loss are known: both shapes of the result, then the real
    arithmetic. *)
Ltac loss_arith :=
  match goal with
  | |- context [if ?b then _ else _] => destruct b
  | _ => idtac
  end;
  simpl; try reflexivity; do 2 f_equal; ring.

(** The loss step after two successful forward passes. *)
Lemma compute_loss_run self model inputs return_outputs w os ot w' :
  forward_passes self model inputs w os ot w' ->
  compute_loss self model inputs return_outputs w =
  match distillation_divergence (temperature (args self)) (logits os) (logits ot),
        loss os with
  | Ok D, Some L =>
      let l := blended_loss (alpha (args self)) (temperature (args self)) L D in
      (Ok (if return_outputs then LossAndOutputs l os else LossOnly l), w')
  | Ok _, None =>
      (Raise (TypeError "unsupported operand type(s) for *: 'float' and 'NoneType'"), w')
  | Raise e, _ => (Raise e, w')
  end.
Proof.
  intros (tm & s' & g' & t' & g'' & Htm & Hs & Ht & ->).
  unfold compute_loss, bind, call_student, call_teacher, lift, ret.
  rewrite Hs, Htm. simpl. rewrite Ht.
  fold (distillation_divergence (temperature (args self)) (logits os) (logits ot)).
  destruct (distillation_divergence _ _ _) as [D|e]; [|reflexivity].
  destruct (loss os) as [L|]; [|reflexivity].
  unfold mul_optional. rewrite <- blend_eq. reflexivity.
Qed.

(* ================================================================= *)
(** ** The blended loss *)

(** C1: after the student and teacher forward passes, with [L_ce] the
    student's supervised loss and [D] the divergence the loss function
    returns, [compute_loss] returns [alpha * L_ce + (1 - alpha) * T^2 * D];
    with [return_outputs] it returns the student's outputs next to the
    same scalar. *)
Theorem compute_loss_blended self model inputs w os ot w' L_ce D :
  forward_passes self model inputs w os ot w' ->
  loss os = Some L_ce ->
  distillation_divergence (temperature (args self)) (logits os) (logits ot) = Ok D ->
  let l := blended_loss (alpha (args self)) (temperature (args self)) L_ce D in
  compute_loss self model inputs false w = (Ok (LossOnly l), w') /\
  compute_loss self model inputs true w = (Ok (LossAndOutputs l os), w').
Proof.
  intros Hfw HL HD l.
  split; rewrite (compute_loss_run _ Hfw), HD, HL; reflexivity.
Qed.

(** C2: on logits of one shape, with a non-zero temperature and a
    non-empty batch, the divergence term is the batch mean of the
    Kullback-Leibler divergence of the teacher's softened distribution
    from the student's, both softened by dividing the logits by [T], and
    it enters the loss multiplied by [T^2]. *)
Theorem divergence_is_softened_kl self model inputs return_outputs w os ot w' L_ce :
  forward_passes self model inputs w os ot w' ->
  loss os = Some L_ce ->
  temperature (args self) <> 0 ->
  same_shape (logits os) (logits ot) ->
  logits os <> [] ->
  let T := temperature (args self) in
  let D := kl_batchmean (softened T (logits ot)) (softened T (logits os)) in
  distillation_divergence T (logits os) (logits ot) = Ok (Fin D) /\
  loss_of (fst (compute_loss self model inputs return_outputs w)) =
    Ok (Fin (alpha (args self) * L_ce + (1 - alpha (args self)) * (T ^ 2 * D))).
Proof.
  intros Hfw HL HT Hshape Hne T D.
  pose proof (divergence_finite HT Hshape Hne) as HD. fold T in HD. fold D in HD.
  split; [exact HD|].
  rewrite (compute_loss_run _ Hfw). fold T. rewrite HD, HL.
  loss_arith.
Qed.

(* ================================================================= *)
(** ** The configuration constructor *)

(** C3, as amended: without explicit values the constructor yields
    [alpha = 0.5] and [temperature = 2.0]; a supplied value is stored as
    it is, whatever it is; the base configuration is kept unchanged, and
    the constructor fails only when the base constructor does. *)
Theorem init_defaults_and_stores :
  (forall (b : TrainingArguments) (a t : option R),
      exists cfg,
        KnowledgeDistillationTrainingArguments_init (Ok b) a t = Ok cfg /\
        base cfg = b /\
        alpha cfg = match a with Some v => v | None => 1 / 2 end /\
        temperature cfg = match t with Some v => v | None => 2 end) /\
  (forall (e : exn) (a t : option R),
      KnowledgeDistillationTrainingArguments_init (Raise e) a t = Raise e).
Proof.
  split; [|reflexivity].
  intros b a t. eexists. split; [reflexivity|]. simpl.
  repeat split; [destruct a | destruct t]; simpl; lra.
Qed.

(** C3, as stated, fails: [alpha = 2] and [temperature = -1] lie outside
    the hyperparameter domain and are accepted. *)
Lemma init_accepts_out_of_domain :
  ~ hyperparameter_domain 2 (-1) /\
  KnowledgeDistillationTrainingArguments_init (Ok sample_base) (Some 2) (Some (-1)) =
  Ok (sample_args 2 (-1)).
Proof.
  split; [|reflexivity].
  unfold hyperparameter_domain. lra.
Qed.

(* ================================================================= *)
(** ** The two ends of the blend *)

(** C4, as amended: with [alpha = 1], when the divergence the loss
    function returns is finite, so that the distillation term
    [T^2 * D] is finite, the returned loss is the student's supervised
    loss, whichever teacher produced the logits. *)
Theorem alpha_one_is_student_loss
    self self' model inputs return_outputs w os ot ot' w1 w2 L_ce d d' :
  alpha (args self) = 1 ->
  args self' = args self ->
  forward_passes self model inputs w os ot w1 ->
  forward_passes self' model inputs w os ot' w2 ->
  loss os = Some L_ce ->
  distillation_divergence (temperature (args self)) (logits os) (logits ot) = Ok (Fin d) ->
  distillation_divergence (temperature (args self)) (logits os) (logits ot') = Ok (Fin d') ->
  loss_of (fst (compute_loss self model inputs return_outputs w)) = Ok (Fin L_ce) /\
  loss_of (fst (compute_loss self' model inputs return_outputs w)) =
  loss_of (fst (compute_loss self model inputs return_outputs w)).
Proof.
  intros Ha Hargs Hfw Hfw' HL HD HD'.
  assert (H1 : loss_of (fst (compute_loss self model inputs return_outputs w)) =
               Ok (Fin L_ce)).
  { rewrite (compute_loss_run _ Hfw), HD, HL, Ha. loss_arith. }
  split; [exact H1|]. rewrite H1.
  rewrite (compute_loss_run _ Hfw'), Hargs, HD', HL, Ha. loss_arith.
Qed.

(** C5, as amended: with [alpha = 0], when the student returns a
    supervised loss, the returned loss is [T^2 * D]; and replacing the
    labels of the batch by labels on which both forward passes still
    succeed, with the same logits and a supervised loss, leaves the
    returned loss unchanged. *)
Theorem alpha_zero_is_distillation_term self model :
  alpha (args self) = 0 ->
  (forall inputs return_outputs w os ot w' L_ce D,
      forward_passes self model inputs w os ot w' ->
      loss os = Some L_ce ->
      distillation_divergence (temperature (args self)) (logits os) (logits ot) = Ok D ->
      loss_of (fst (compute_loss self model inputs return_outputs w)) =
      Ok (fmul (Fin (temperature (args self) ^ 2)) D)) /\
  (forall b l l' return_outputs w os ot w1 os' ot' w2 L_ce L_ce',
      forward_passes self model (with_labels b l) w os ot w1 ->
      forward_passes self model (with_labels b l') w os' ot' w2 ->
      logits os' = logits os ->
      logits ot' = logits ot ->
      loss os = Some L_ce ->
      loss os' = Some L_ce' ->
      loss_of (fst (compute_loss self model (with_labels b l) return_outputs w)) =
      loss_of (fst (compute_loss self model (with_labels b l') return_outputs w))).
Proof.
  intros Ha. split.
  - intros inputs ro w os ot w' L D Hfw HL HD.
    rewrite (compute_loss_run _ Hfw), HD, HL, Ha.
    destruct D as [d|]; loss_arith.
  - intros b l l' ro w os ot w1 os' ot' w2 L L' Hfw Hfw' Hs Ht HL HL'.
    rewrite (compute_loss_run _ Hfw), (compute_loss_run _ Hfw'), Hs, Ht, HL, HL', Ha.
    destruct (distillation_divergence _ _ _) as [[d|]|e]; try reflexivity; loss_arith.
Qed.

(* ================================================================= *)
(** ** The divergence of a distribution from itself *)

Lemma kl_divergence_same P : kl_divergence P P = 0.
Proof.
  unfold kl_divergence. rewrite map2_same. unfold Rsum.
  induction P as [|p P IH]; [reflexivity|].
  simpl. rewrite IH.
  destruct (Req_dec_T p 0) as [->|Hp]; [ring|].
  replace (p / p) with 1 by (field; assumption).
  rewrite ln_1. ring.
Qed.

Lemma kl_batchmean_same P : kl_batchmean P P = 0.
Proof.
  unfold kl_batchmean. rewrite map2_same.
  replace (Rsum (map (fun x => kl_divergence x x) P)) with 0.
  - unfold Rdiv. ring.
  - unfold Rsum. induction P as [|p P IH]; [reflexivity|].
    simpl. rewrite kl_divergence_same, <- IH. ring.
Qed.

(* ================================================================= *)
(** ** Effects of the loss step *)

(** X18: the loss step changes the state of the networks only through
    the two forward passes: provided the teacher's forward pass does
    not write to the weights, the teacher's parameters after the step
    are those before it, whether the step returns a loss or raises, and
    without a teacher the teacher's state is not touched at all. *)
Theorem teacher_parameters_unchanged self model inputs return_outputs w :
  (forall tm, teacher_model self = Some tm -> preserves_parameters tm) ->
  let w' := snd (compute_loss self model inputs return_outputs w) in
  w' = snd ((_ <- call_student model inputs ;;
             call_teacher (teacher_model self) inputs) w) /\
  parameters (teacher w') = parameters (teacher w) /\
  (teacher_model self = None -> teacher w' = teacher w).
Proof.
  intros Hpres w'. subst w'.
  unfold compute_loss, bind, call_student, call_teacher, lift, ret, raise.
  destruct (model (student w) (generator w) inputs) as [[r s] g].
  destruct r as [os|e]; [|simpl; auto].
  destruct (teacher_model self) as [tm|] eqn:Etm; [|simpl; auto].
  specialize (Hpres tm eq_refl (teacher w) g inputs).
  simpl. destruct (tm (teacher w) g inputs) as [[q t] h]. simpl in Hpres.
  destruct q as [ot|e]; [|simpl; repeat split; auto; discriminate].
  destruct (nn.KLDivLoss_batchmean _ _) as [D|e];
    [|simpl; repeat split; auto; discriminate].
  destruct (mul_optional _ _) as [x|e]; simpl; repeat split; auto; discriminate.
Qed.

(* ================================================================= *)
(** ** Temperature zero *)

Lemma tensor_div_zero (t : list (list R)) :
  tensor_div (of_reals t) (Fin 0) = map (map (fun _ => NonFinite)) t.
Proof.
  unfold tensor_div, of_reals. rewrite map_map.
  apply map_ext. intros r. rewrite map_map.
  apply map_ext. intros x. apply fdiv_zero.
Qed.

Lemma softmax_nonfinite (t : list (list R)) :
  F.softmax (map (map (fun _ => NonFinite)) t) = map (map (fun _ => NonFinite)) t.
Proof.
  unfold F.softmax. rewrite map_map. apply map_ext. intros r.
  unfold F.softmax_row. rewrite !map_map. reflexivity.
Qed.

Lemma log_softmax_nonfinite (t : list (list R)) :
  F.log_softmax (map (map (fun _ => NonFinite)) t) = map (map (fun _ => NonFinite)) t.
Proof.
  unfold F.log_softmax. rewrite map_map. apply map_ext. intros r.
  unfold F.log_softmax_row. rewrite !map_map. reflexivity.
Qed.

Lemma divergence_at_zero ls lt :
  same_shape ls lt -> hd [] ls <> [] ->
  distillation_divergence 0 ls lt = Ok NonFinite.
Proof.
  intros Hshape Hhd. unfold distillation_divergence.
  rewrite !tensor_div_zero, softmax_nonfinite, log_softmax_nonfinite.
  rewrite KLDivLoss_same_shape.
  - destruct Hshape as [|r r' ls lt Hr _]; [contradiction Hhd; reflexivity|].
    simpl in Hhd. destruct r as [|x r]; [congruence|].
    destruct r' as [|y r']; [discriminate|]. reflexivity.
  - repeat (apply same_shape_map_l; [intros; apply length_map|]).
    repeat (apply same_shape_map_r; [intros; apply length_map|]).
    now apply same_shape_sym.
Qed.

(** C9: the constructor stores any temperature, zero and negative
    values included.  On logits of one shape with at least one class and
    one example, the loss step returns a finite loss when the
    temperature is not zero; at temperature zero every quotient of the
    logit division is non-finite and so is the returned loss. *)
Theorem temperature_zero_unguarded :
  (forall b a T,
      KnowledgeDistillationTrainingArguments_init (Ok b) a (Some T) =
      Ok {| base := b; alpha := kwarg 0.5 a; temperature := T |}) /\
  (forall self model inputs return_outputs w os ot w' L_ce,
      forward_passes self model inputs w os ot w' ->
      loss os = Some L_ce ->
      same_shape (logits os) (logits ot) ->
      hd [] (logits os) <> [] ->
      (temperature (args self) <> 0 ->
       exists l, loss_of (fst (compute_loss self model inputs return_outputs w)) = Ok (Fin l)) /\
      (temperature (args self) = 0 ->
       tensor_div (of_reals (logits os)) (Fin (temperature (args self))) =
         map (map (fun _ => NonFinite)) (logits os) /\
       tensor_div (of_reals (logits ot)) (Fin (temperature (args self))) =
         map (map (fun _ => NonFinite)) (logits ot) /\
       loss_of (fst (compute_loss self model inputs return_outputs w)) = Ok NonFinite)).
Proof.
  split; [reflexivity|].
  intros self model inputs ro w os ot w' L Hfw HL Hshape Hhd.
  assert (Hne : logits os <> []) by (intros E; rewrite E in Hhd; now apply Hhd).
  split.
  - intros HT. rewrite (compute_loss_run _ Hfw).
    rewrite (divergence_finite HT Hshape Hne), HL.
    destruct ro; simpl; eexists; reflexivity.
  - intros HT. rewrite HT. repeat split; try apply tensor_div_zero.
    rewrite (compute_loss_run _ Hfw), HT.
    rewrite (divergence_at_zero Hshape Hhd), HL.
    destruct ro; reflexivity.
Qed.

(* ================================================================= *)
(** ** A trainer without a teacher *)

(** C10: a trainer constructed without [teacher_model] holds [None];
    with [None] for a teacher the loss step never returns a loss: once
    the student's forward pass has returned, it raises the [TypeError]
    of calling [None].  So a returned loss implies a teacher. *)
Theorem no_teacher_no_loss :
  (forall training_args,
      teacher_model (KnowledgeDistillationTrainer_init training_args None) = None) /\
  (forall self model inputs return_outputs w,
      teacher_model self = None ->
      is_ok (fst (compute_loss self model inputs return_outputs w)) = false /\
      (forall os s' g',
          model (student w) (generator w) inputs = (Ok os, s', g') ->
          compute_loss self model inputs return_outputs w =
          (Raise (TypeError "'NoneType' object is not callable"),
           {| student := s'; teacher := teacher w; generator := g' |}))) /\
  (forall self model inputs return_outputs w,
      is_ok (fst (compute_loss self model inputs return_outputs w)) = true ->
      teacher_model self <> None).
Proof.
  assert (H : forall self model inputs return_outputs w,
             teacher_model self = None ->
             is_ok (fst (compute_loss self model inputs return_outputs w)) = false).
  { intros self model inputs ro w Hnone.
    unfold compute_loss, bind, call_student, call_teacher, raise.
    rewrite Hnone.
    destruct (model (student w) (generator w) inputs) as [[[os|e] s] g]; reflexivity. }
  split; [reflexivity|]. split.
  - intros self model inputs ro w Hnone. split; [now apply H|].
    intros os s' g' Hs.
    unfold compute_loss, bind, call_student, call_teacher, raise.
    rewrite Hnone, Hs. reflexivity.
  - intros self model inputs ro w Hok Hnone.
    rewrite (H _ _ _ _ _ Hnone) in Hok. discriminate.
Qed.

(* ================================================================= *)
(** ** The theorems on sample data

    A student with uniform logits over five classes, label index 2, and
    teachers with uniform or peaked logits. *)

Lemma sample_forward_passes a T ls lt :
  forward_passes (sample_trainer a T lt) (fixed_classifier ls) sample_batch sample_world
                 (sample_outputs ls sample_batch) (sample_outputs lt sample_batch)
                 sample_world_after.
Proof.
  exists (fixed_classifier lt), sample_state_after, 43%Z, sample_state_after, 44%Z.
  repeat split; reflexivity.
Qed.

Lemma uniform_peaked_same_shape : same_shape uniform_logits peaked_logits.
Proof. repeat constructor. Qed.

Lemma uniform_nonempty : uniform_logits <> [].
Proof. discriminate. Qed.

Lemma two_nonzero : 2 <> 0.
Proof. lra. Qed.

Lemma fixed_classifier_preserves_parameters lg : preserves_parameters (fixed_classifier lg).
Proof. intros st g b. reflexivity. Qed.

Lemma cross_entropy_uniform : cross_entropy uniform_logits [2%Z] = ln 5.
Proof.
  unfold cross_entropy, uniform_logits, log_softmax_R, sum_exp, Rsum. simpl.
  rewrite exp_0. replace (1 + (1 + (1 + (1 + (1 + 0))))) with 5 by ring.
  field.
Qed.

Lemma uniform_divergence :
  distillation_divergence 2 uniform_logits uniform_logits = Ok (Fin 0).
Proof.
  rewrite (divergence_finite two_nonzero (same_shape_refl uniform_logits) uniform_nonempty).
  now rewrite kl_batchmean_same.
Qed.

Lemma labelled_forward_passes a T ls lt l :
  forward_passes (sample_trainer a T lt) (fixed_classifier ls)
                 (with_labels sample_batch l) sample_world
                 (sample_outputs ls (with_labels sample_batch l))
                 (sample_outputs lt (with_labels sample_batch l))
                 sample_world_after.
Proof.
  exists (fixed_classifier lt), sample_state_after, 43%Z, sample_state_after, 44%Z.
  repeat split; reflexivity.
Qed.

(** C4, as stated, fails: with [alpha = 1] and temperature zero both
    forward passes succeed and the student's loss is a real number, yet
    the returned loss is non-finite, since [0 * nan] is [nan]. *)
Lemma alpha_one_at_temperature_zero :
  alpha (args (sample_trainer 1 0 peaked_logits)) = 1 /\
  forward_passes (sample_trainer 1 0 peaked_logits) (fixed_classifier uniform_logits)
                 sample_batch sample_world
                 (sample_outputs uniform_logits sample_batch)
                 (sample_outputs peaked_logits sample_batch)
                 sample_world_after /\
  loss (sample_outputs uniform_logits sample_batch) =
    Some (cross_entropy uniform_logits [2%Z]) /\
  loss_of (fst (compute_loss (sample_trainer 1 0 peaked_logits)
                             (fixed_classifier uniform_logits)
                             sample_batch false sample_world)) = Ok NonFinite /\
  loss_of (fst (compute_loss (sample_trainer 1 0 peaked_logits)
                             (fixed_classifier uniform_logits)
                             sample_batch false sample_world)) <>
    Ok (Fin (cross_entropy uniform_logits [2%Z])).
Proof.
  assert (H : loss_of (fst (compute_loss (sample_trainer 1 0 peaked_logits)
                             (fixed_classifier uniform_logits)
                             sample_batch false sample_world)) = Ok NonFinite).
  { rewrite (compute_loss_run false (sample_forward_passes 1 0 uniform_logits peaked_logits)).
    change (distillation_divergence _ _ _)
      with (distillation_divergence 0 uniform_logits peaked_logits).
    rewrite (divergence_at_zero uniform_peaked_same_shape) by discriminate.
    reflexivity. }
  split; [reflexivity|]. split; [apply sample_forward_passes|].
  split; [reflexivity|]. split; [exact H|].
  rewrite H. discriminate.
Qed.

Lemma alpha_one_is_student_loss_witness :
  loss_of (fst (compute_loss (sample_trainer 1 2 peaked_logits)
                             (fixed_classifier uniform_logits)
                             sample_batch false sample_world)) =
    Ok (Fin (cross_entropy uniform_logits [2%Z])) /\
  loss_of (fst (compute_loss (sample_trainer 1 2 uniform_logits)
                             (fixed_classifier uniform_logits)
                             sample_batch false sample_world)) =
  loss_of (fst (compute_loss (sample_trainer 1 2 peaked_logits)
                             (fixed_classifier uniform_logits)
                             sample_batch false sample_world)).
Proof.
  apply (@alpha_one_is_student_loss (sample_trainer 1 2 peaked_logits)
           (sample_trainer 1 2 uniform_logits)
           (fixed_classifier uniform_logits) sample_batch false sample_world
           (sample_outputs uniform_logits sample_batch)
           (sample_outputs peaked_logits sample_batch)
           (sample_outputs uniform_logits sample_batch)
           sample_world_after sample_world_after (cross_entropy uniform_logits [2%Z])
           (kl_batchmean (softened 2 peaked_logits) (softened 2 uniform_logits)) 0).
  - reflexivity.
  - reflexivity.
  - apply sample_forward_passes.
  - apply sample_forward_passes.
  - reflexivity.
  - exact (divergence_finite two_nonzero uniform_peaked_same_shape uniform_nonempty).
  - exact uniform_divergence.
Defined.

(** C5, as stated, fails: with [alpha = 0], replacing label 2 by
    label 7, which a student with five classes rejects, turns the
    returned loss into the exception of the student's forward pass. *)
Lemma alpha_zero_label_rejected :
  alpha (args (sample_trainer 0 2 peaked_logits)) = 0 /\
  loss_of (fst (compute_loss (sample_trainer 0 2 peaked_logits)
                             (validating_classifier uniform_logits)
                             (with_labels sample_batch [2%Z]) false sample_world)) =
    Ok (fmul (Fin (2 ^ 2))
             (Fin (kl_batchmean (softened 2 peaked_logits) (softened 2 uniform_logits)))) /\
  loss_of (fst (compute_loss (sample_trainer 0 2 peaked_logits)
                             (validating_classifier uniform_logits)
                             (with_labels sample_batch [7%Z]) false sample_world)) =
    Raise (OtherError "IndexError: Target is out of bounds") /\
  loss_of (fst (compute_loss (sample_trainer 0 2 peaked_logits)
                             (validating_classifier uniform_logits)
                             (with_labels sample_batch [2%Z]) false sample_world)) <>
  loss_of (fst (compute_loss (sample_trainer 0 2 peaked_logits)
                             (validating_classifier uniform_logits)
                             (with_labels sample_batch [7%Z]) false sample_world)).
Proof.
  assert (Hfw : forward_passes (sample_trainer 0 2 peaked_logits)
                  (validating_classifier uniform_logits)
                  (with_labels sample_batch [2%Z]) sample_world
                  {| loss := Some (cross_entropy uniform_logits [2%Z]);
                     logits := uniform_logits |}
                  (sample_outputs peaked_logits (with_labels sample_batch [2%Z]))
                  sample_world_after).
  { exists (fixed_classifier peaked_logits), sample_state_after, 43%Z,
           sample_state_after, 44%Z.
    repeat split; reflexivity. }
  assert (H2 : loss_of (fst (compute_loss (sample_trainer 0 2 peaked_logits)
                             (validating_classifier uniform_logits)
                             (with_labels sample_batch [2%Z]) false sample_world)) =
    Ok (fmul (Fin (2 ^ 2))
             (Fin (kl_batchmean (softened 2 peaked_logits) (softened 2 uniform_logits))))).
  { rewrite (compute_loss_run false Hfw).
    change (distillation_divergence _ _ _)
      with (distillation_divergence 2 uniform_logits peaked_logits).
    rewrite (divergence_finite two_nonzero uniform_peaked_same_shape uniform_nonempty).
    simpl. do 2 f_equal. ring. }
  assert (H7 : loss_of (fst (compute_loss (sample_trainer 0 2 peaked_logits)
                             (validating_classifier uniform_logits)
                             (with_labels sample_batch [7%Z]) false sample_world)) =
    Raise (OtherError "IndexError: Target is out of bounds")) by reflexivity.
  split; [reflexivity|]. split; [exact H2|]. split; [exact H7|].
  rewrite H2, H7. discriminate.
Qed.

Lemma alpha_zero_is_distillation_term_witness :
  loss_of (fst (compute_loss (sample_trainer 0 2 peaked_logits)
                             (fixed_classifier uniform_logits)
                             sample_batch false sample_world)) =
    Ok (fmul (Fin (2 ^ 2))
             (Fin (kl_batchmean (softened 2 peaked_logits) (softened 2 uniform_logits)))) /\
  loss_of (fst (compute_loss (sample_trainer 0 2 peaked_logits)
                             (fixed_classifier uniform_logits)
                             (with_labels sample_batch [2%Z]) false sample_world)) =
  loss_of (fst (compute_loss (sample_trainer 0 2 peaked_logits)
                             (fixed_classifier uniform_logits)
                             (with_labels sample_batch [4%Z]) false sample_world)).
Proof.
  destruct (@alpha_zero_is_distillation_term (sample_trainer 0 2 peaked_logits)
              (fixed_classifier uniform_logits) eq_refl) as [Hvalue Hlabels].
  split.
  - apply (Hvalue sample_batch false sample_world
             (sample_outputs uniform_logits sample_batch)
             (sample_outputs peaked_logits sample_batch)
             sample_world_after (cross_entropy uniform_logits [2%Z])).
    + apply sample_forward_passes.
    + reflexivity.
    + apply (divergence_finite two_nonzero uniform_peaked_same_shape uniform_nonempty).
  - apply (Hlabels sample_batch [2%Z] [4%Z] false sample_world
             (sample_outputs uniform_logits (with_labels sample_batch [2%Z]))
             (sample_outputs peaked_logits (with_labels sample_batch [2%Z]))
             sample_world_after
             (sample_outputs uniform_logits (with_labels sample_batch [4%Z]))
             (sample_outputs peaked_logits (with_labels sample_batch [4%Z]))
             sample_world_after
             (cross_entropy uniform_logits [2%Z]) (cross_entropy uniform_logits [4%Z])).
    + apply labelled_forward_passes.
    + apply labelled_forward_passes.
    + reflexivity.
    + reflexivity.
    + reflexivity.
    + reflexivity.
Defined.

Lemma compute_loss_blended_witness :
  let self := sample_trainer 0.5 2 uniform_logits in
  let model := fixed_classifier uniform_logits in
  let l := blended_loss 0.5 2 (cross_entropy uniform_logits [2%Z]) (Fin 0) in
  compute_loss self model sample_batch false sample_world =
    (Ok (LossOnly l), sample_world_after) /\
  compute_loss self model sample_batch true sample_world =
    (Ok (LossAndOutputs l (sample_outputs uniform_logits sample_batch)), sample_world_after).
Proof.
  intros self model l.
  apply (@compute_loss_blended self model sample_batch sample_world
           (sample_outputs uniform_logits sample_batch)
           (sample_outputs uniform_logits sample_batch)
           sample_world_after (cross_entropy uniform_logits [2%Z]) (Fin 0)).
  - apply sample_forward_passes.
  - reflexivity.
  - exact uniform_divergence.
Defined.

Lemma divergence_is_softened_kl_witness :
  let D := kl_batchmean (softened 2 peaked_logits) (softened 2 uniform_logits) in
  distillation_divergence 2 uniform_logits peaked_logits = Ok (Fin D) /\
  loss_of (fst (compute_loss (sample_trainer 0.5 2 peaked_logits)
                             (fixed_classifier uniform_logits)
                             sample_batch false sample_world)) =
    Ok (Fin (0.5 * cross_entropy uniform_logits [2%Z] + (1 - 0.5) * (2 ^ 2 * D))).
Proof.
  apply (@divergence_is_softened_kl (sample_trainer 0.5 2 peaked_logits)
           (fixed_classifier uniform_logits) sample_batch false sample_world
           (sample_outputs uniform_logits sample_batch)
           (sample_outputs peaked_logits sample_batch)
           sample_world_after (cross_entropy uniform_logits [2%Z])).
  - apply sample_forward_passes.
  - reflexivity.
  - exact two_nonzero.
  - exact uniform_peaked_same_shape.
  - exact uniform_nonempty.
Defined.

Lemma teacher_parameters_unchanged_witness :
  let self := sample_trainer 0.5 2 peaked_logits in
  let model := fixed_classifier uniform_logits in
  let w' := snd (compute_loss self model sample_batch false sample_world) in
  w' = snd ((_ <- call_student model sample_batch ;;
             call_teacher (teacher_model self) sample_batch) sample_world) /\
  parameters (teacher w') = parameters (teacher sample_world) /\
  (teacher_model self = None -> teacher w' = teacher sample_world).
Proof.
  intros self model.
  apply (@teacher_parameters_unchanged self model sample_batch false sample_world).
  intros tm Htm. injection Htm as <-. apply fixed_classifier_preserves_parameters.
Defined.

Lemma temperature_zero_unguarded_witness :
  KnowledgeDistillationTrainingArguments_init (Ok sample_base) None (Some 0) =
    Ok {| base := sample_base; alpha := 0.5; temperature := 0 |} /\
  (exists l,
      loss_of (fst (compute_loss (sample_trainer 0.5 2 peaked_logits)
                                 (fixed_classifier uniform_logits)
                                 sample_batch false sample_world)) = Ok (Fin l)) /\
  tensor_div (of_reals uniform_logits) (Fin 0) = [[NonFinite; NonFinite; NonFinite; NonFinite; NonFinite]] /\
  loss_of (fst (compute_loss (sample_trainer 0.5 0 peaked_logits)
                             (fixed_classifier uniform_logits)
                             sample_batch false sample_world)) = Ok NonFinite.
Proof.
  destruct temperature_zero_unguarded as [Hinit Hloss].
  split; [apply (Hinit sample_base None 0)|].
  split.
  - apply (Hloss (sample_trainer 0.5 2 peaked_logits) (fixed_classifier uniform_logits)
             sample_batch false sample_world
             (sample_outputs uniform_logits sample_batch)
             (sample_outputs peaked_logits sample_batch)
             sample_world_after (cross_entropy uniform_logits [2%Z])).
    + apply sample_forward_passes.
    + reflexivity.
    + exact uniform_peaked_same_shape.
    + discriminate.
    + exact two_nonzero.
  - destruct (Hloss (sample_trainer 0.5 0 peaked_logits) (fixed_classifier uniform_logits)
                sample_batch false sample_world
                (sample_outputs uniform_logits sample_batch)
                (sample_outputs peaked_logits sample_batch)
                sample_world_after (cross_entropy uniform_logits [2%Z])
                (sample_forward_passes 0.5 0 uniform_logits peaked_logits)
                eq_refl uniform_peaked_same_shape) as [_ Hzero].
    + discriminate.
    + destruct (Hzero eq_refl) as (Hs & _ & Hl). split; [exact Hs|exact Hl].
Defined.

Lemma no_teacher_no_loss_witness :
  let self := KnowledgeDistillationTrainer_init (sample_args 0.5 2) None in
  teacher_model self = None /\
  compute_loss self (fixed_classifier uniform_logits) sample_batch false sample_world =
    (Raise (TypeError "'NoneType' object is not callable"),
     {| student := sample_state_after; teacher := sample_state; generator := 43%Z |}).
Proof.
  intros self.
  destruct no_teacher_no_loss as (Hdefault & Hnone & _).
  split; [apply Hdefault|].
  destruct (Hnone self (fixed_classifier uniform_logits) sample_batch false sample_world
              (Hdefault (sample_args 0.5 2))) as [_ Hraise].
  apply (Hraise (sample_outputs uniform_logits sample_batch)). reflexivity.
Defined.

(* ================================================================= *)
(** ** Errors of the loss step *)

Lemma INR_length_pos {A} (l : list A) : l <> [] -> 0 < INR (length l).
Proof.
  intros Hl. destruct l; [congruence|]. apply lt_0_INR. simpl. lia.
Qed.














(** X5: an exception of either forward pass leaves the loss step
    unchanged: when the student's pass raises, the teacher is not run
    and its state stays as it was; when the teacher's pass raises, the
    student has run and the exception is the teacher's. *)
Theorem forward_errors_propagate self model inputs return_outputs w :
  (forall e s' g',
      model (student w) (generator w) inputs = (Raise e, s', g') ->
      compute_loss self model inputs return_outputs w =
      (Raise e, {| student := s'; teacher := teacher w; generator := g' |})) /\
  (forall tm os s' g' e t' g'',
      teacher_model self = Some tm ->
      model (student w) (generator w) inputs = (Ok os, s', g') ->
      tm (teacher w) g' inputs = (Raise e, t', g'') ->
      compute_loss self model inputs return_outputs w =
      (Raise e, {| student := s'; teacher := t'; generator := g'' |})).
Proof.
  split.
  - intros e s' g' Hs.
    unfold compute_loss, bind, call_student. rewrite Hs. reflexivity.
  - intros tm os s' g' e t' g'' Htm Hs Ht.
    unfold compute_loss, bind, call_student, call_teacher.
    rewrite Hs, Htm. simpl. rewrite Ht. reflexivity.
Qed.



(** X9: the configuration of the notebook's run has [alpha = 1] and
    the default temperature [2.0]; with it, on a non-empty batch and
    logits of one shape, the trainer's loss is the student's supervised
    loss, whichever teacher is given. *)
Theorem notebook_run_ignores_teacher :
  exists cfg,
    student_training_args = Ok cfg /\
    alpha cfg = 1 /\ temperature cfg = 2 /\
    forall teacher_model model inputs return_outputs w os ot w' L_ce,
      forward_passes (distilbert_trainer cfg teacher_model) model inputs w os ot w' ->
      loss os = Some L_ce ->
      same_shape (logits os) (logits ot) ->
      logits os <> [] ->
      loss_of (fst (compute_loss (distilbert_trainer cfg teacher_model)
                                 model inputs return_outputs w)) = Ok (Fin L_ce).
Proof.
  eexists. split; [reflexivity|]. split; [reflexivity|]. split; [simpl; lra|].
  intros tm model inputs ro w os ot w' L Hfw HL Hshape Hne.
  rewrite (compute_loss_run _ Hfw).
  assert (HT : temperature (args (distilbert_trainer
            {| base := {| output_dir := finetuned_student_ckpt;
                          evaluation_strategy := "epoch";
                          num_train_epochs := 1;
                          learning_rate := 2e-5;
                          per_device_train_batch_size := batch_size;
                          per_device_eval_batch_size := batch_size;
                          weight_decay := 0.01 |};
               alpha := kwarg 0.5 (Some 1);
               temperature := kwarg 2.0 None |} tm)) <> 0) by (simpl; lra).
  rewrite (divergence_finite HT Hshape Hne), HL.
  destruct ro; simpl; do 2 f_equal; ring.
Qed.

(* ================================================================= *)
(** ** The evaluation metric *)

Lemma argmax_from_spec r : forall best bi i,
  (argmax_from best bi i r = bi /\ Forall (fun x => x <= best) r) \/
  (exists k, argmax_from best bi i r = (i + k)%nat /\ (k < length r)%nat /\
             best < nth k r 0 /\
             (forall m, (m < length r)%nat -> nth m r 0 <= nth k r 0) /\
             (forall m, (m < k)%nat -> nth m r 0 < nth k r 0)).
Proof.
  induction r as [|x r IH]; intros best bi i.
  - left. split; [reflexivity|constructor].
  - simpl argmax_from. destruct (Rlt_dec best x) as [Hlt|Hge].
    + destruct (IH x i (S i)) as [[Hj Hall]|(k & Hj & Hk & Hbest & Hmax & Hfirst)];
        rewrite Hj; right.
      * exists 0%nat. split; [lia|]. split; [simpl; lia|]. split; [simpl; lra|]. split.
        -- intros [|m] Hm; simpl in *; [lra|].
           rewrite Forall_forall in Hall. apply Hall, nth_In. lia.
        -- intros m Hm. lia.
      * exists (S k). split; [lia|]. split; [simpl; lia|]. split; [simpl; lra|]. split.
        -- intros [|m] Hm; simpl in *; [lra|]. apply Hmax. lia.
        -- intros [|m] Hm; simpl; [lra|]. apply Hfirst. lia.
    + destruct (IH best bi (S i)) as [[Hj Hall]|(k & Hj & Hk & Hbest & Hmax & Hfirst)];
        rewrite Hj.
      * left. split; [reflexivity|]. constructor; [lra|assumption].
      * right. exists (S k). split; [lia|]. split; [simpl; lia|]. split; [simpl; lra|]. split.
        -- intros [|m] Hm; simpl in *; [lra|]. apply Hmax. lia.
        -- intros [|m] Hm; simpl; [lra|]. apply Hfirst. lia.
Qed.

Lemma argmax_spec row :
  row <> [] ->
  exists j, argmax row = Ok j /\ (j < length row)%nat /\
            (forall m, (m < length row)%nat -> nth m row 0 <= nth j row 0) /\
            (forall m, (m < j)%nat -> nth m row 0 < nth j row 0).
Proof.
  destruct row as [|x r]; [congruence|]. intros _.
  eexists. split; [reflexivity|].
  destruct (argmax_from_spec r x 0 1) as [[Hj Hall]|(k & Hj & Hk & Hbest & Hmax & Hfirst)];
    rewrite Hj.
  - split; [simpl; lia|]. split.
    + intros [|m] Hm; simpl in *; [lra|].
      rewrite Forall_forall in Hall. apply Hall, nth_In. lia.
    + intros m Hm. lia.
  - split; [simpl; lia|]. split.
    + intros [|m] Hm; simpl in *; [lra|]. apply Hmax. lia.
    + intros [|m] Hm; simpl; [lra|]. apply Hfirst. lia.
Qed.

Lemma argmax_axis1_defined predictions :
  Forall (fun row => row <> []) predictions ->
  exists js, argmax_axis1 predictions = Ok js /\
             Forall2 (fun row j => argmax row = Ok j) predictions js.
Proof.
  unfold argmax_axis1. induction 1 as [|row rows Hrow _ IH].
  - exists []. split; [reflexivity|constructor].
  - destruct IH as (js & Hjs & Hall).
    destruct (argmax_spec Hrow) as (j & Hj & _).
    exists (j :: js). simpl. rewrite Hj, Hjs. split; [reflexivity|].
    constructor; assumption.
Qed.

Lemma argmax_axis1_empty_row predictions :
  In [] predictions ->
  argmax_axis1 predictions =
    Raise (OtherError "ValueError: attempt to get argmax of an empty sequence").
Proof.
  unfold argmax_axis1. induction predictions as [|row rows IH]; [intros []|].
  intros [->|Hin]; [reflexivity|].
  simpl. destruct row as [|x r]; [reflexivity|].
  simpl. rewrite IH by assumption. reflexivity.
Qed.

Lemma count_matches_le js labels : (count_matches js labels <= length js)%nat.
Proof.
  unfold count_matches.
  etransitivity; [apply filter_length_le|].
  rewrite length_combine. apply Nat.le_min_l.
Qed.

Lemma count_matches_cons j js l labels :
  count_matches (j :: js) (l :: labels) =
  ((if (Z.of_nat j =? l)%Z then 1 else 0) + count_matches js labels)%nat.
Proof.
  unfold count_matches. simpl. unfold prediction_matches at 1. simpl.
  destruct (Z.of_nat j =? l)%Z; reflexivity.
Qed.

Lemma count_matches_all js labels :
  length js = length labels ->
  count_matches js labels = length js <-> Forall2 (fun j l => Z.of_nat j = l) js labels.
Proof.
  revert labels. induction js as [|j js IH]; intros [|l labels] Hlen;
    simpl in Hlen; try discriminate.
  - split; [constructor|reflexivity].
  - injection Hlen as Hlen. rewrite count_matches_cons.
    pose proof (count_matches_le js labels) as Hle.
    destruct (Z.eqb_spec (Z.of_nat j) l) as [E|E]; simpl; split.
    + intros H. constructor; [assumption|]. apply IH; [assumption|lia].
    + intros H. inversion H; subst. f_equal. now apply IH.
    + intros H. lia.
    + intros H. inversion H; subst. congruence.
Qed.

(** X10: for every example with at least one class, the predicted class
    is the first index holding the largest logit of its row. *)
Theorem predictions_are_first_maxima predictions :
  Forall (fun row => row <> []) predictions ->
  exists js,
    argmax_axis1 predictions = Ok js /\
    Forall2 (fun row j =>
               (j < length row)%nat /\
               (forall m, (m < length row)%nat -> nth m row 0 <= nth j row 0) /\
               (forall m, (m < j)%nat -> nth m row 0 < nth j row 0))
            predictions js.
Proof.
  intros Hrows. destruct (argmax_axis1_defined Hrows) as (js & Hjs & Hall).
  exists js. split; [assumption|].
  clear Hjs. induction Hall as [|row j rows js Hj _ IH]; constructor.
  - inversion Hrows; subst.
    destruct (@argmax_spec row) as (j' & Hj' & Hspec); [assumption|].
    rewrite Hj in Hj'. injection Hj' as <-. exact Hspec.
  - apply IH. now inversion Hrows.
Qed.

Lemma class_indices_fit predictions js :
  Forall2 (fun row j => argmax row = Ok j) predictions js ->
  Forall (fun row : list R => (Z.of_nat (length row) <= 2147483648)%Z) predictions ->
  forallb (fun j => int32 (Z.of_nat j)) js = true.
Proof.
  induction 1 as [|row j rows js Hj _ IH]; intros Hsize; [reflexivity|].
  inversion Hsize as [|? ? Hrow Hrest]; subst.
  simpl. rewrite IH by assumption. rewrite andb_true_r.
  assert (Hne : row <> []) by (intros ->; discriminate).
  destruct (argmax_spec Hne) as (j' & Hj' & Hlt & _).
  rewrite Hj in Hj'. injection Hj' as <-.
  unfold int32. apply andb_true_iff. split; [apply Z.leb_le|apply Z.leb_le]; lia.
Qed.

(** X11: on at least one example, with as many labels as examples, at
    least one class each, and labels and class indices that fit the
    metric's 32-bit columns, [compute_metrics] returns an accuracy
    between 0 and 1, and the accuracy is 1 exactly when every predicted
    class is the label. *)
Theorem accuracy_range_and_perfect predictions labels :
  predictions <> [] ->
  Forall (fun row => row <> []) predictions ->
  Forall (fun row : list R => (Z.of_nat (length row) <= 2147483648)%Z) predictions ->
  length predictions = length labels ->
  Forall (fun l => int32 l = true) labels ->
  exists js a,
    argmax_axis1 predictions = Ok js /\
    compute_metrics (predictions, labels) = Ok [("accuracy"%string, Fin a)] /\
    0 <= a <= 1 /\
    (a = 1 <-> Forall2 (fun j l => Z.of_nat j = l) js labels).
Proof.
  intros Hne Hrows Hsize Hlen Hrange.
  destruct (argmax_axis1_defined Hrows) as (js & Hjs & Hall).
  pose proof (Forall2_same_length Hall) as Hl.
  assert (Hn : 0 < INR (length js)).
  { apply lt_0_INR. destruct predictions; [congruence|]. simpl in Hl. lia. }
  exists js, (INR (count_matches js labels) / INR (length js)).
  split; [assumption|]. split.
  - unfold compute_metrics. rewrite Hjs. simpl. unfold accuracy_score_compute.
    replace (length js =? length labels)%nat with true
      by (symmetry; apply Nat.eqb_eq; congruence).
    rewrite (class_indices_fit Hall Hsize).
    replace (forallb int32 labels) with true
      by (symmetry; apply forallb_forall; rewrite Forall_forall in Hrange; exact Hrange).
    cbn [andb]. rewrite fdiv_fin by lra. reflexivity.
  - pose proof (count_matches_le js labels) as Hle. apply le_INR in Hle.
    pose proof (pos_INR (count_matches js labels)) as Hpos.
    split.
    + split.
      * apply Rmult_le_pos; [assumption|]. apply Rlt_le. now apply Rinv_0_lt_compat.
      * apply Rmult_le_reg_r with (INR (length js)); [assumption|].
        unfold Rdiv. rewrite Rmult_assoc, Rinv_l by lra. lra.
    + rewrite <- count_matches_all by congruence. split.
      * intros H. apply INR_eq.
        apply (f_equal (fun x => x * INR (length js))) in H.
        unfold Rdiv in H. rewrite Rmult_assoc, Rinv_l in H by lra. lra.
      * intros ->. field. lra.
Qed.

(** X13: [compute_metrics] raises a [ValueError] when an example has
    no class to choose from, whatever the labels, and when the number
    of labels is not the number of examples. *)
Theorem compute_metrics_value_errors predictions labels :
  (In [] predictions ->
   compute_metrics (predictions, labels) =
   Raise (OtherError "ValueError: attempt to get argmax of an empty sequence")) /\
  (Forall (fun row => row <> []) predictions ->
   length predictions <> length labels ->
   compute_metrics (predictions, labels) =
   Raise (OtherError "ValueError: Mismatch in the number of predictions and references")).
Proof.
  split.
  - intros Hin. unfold compute_metrics. now rewrite argmax_axis1_empty_row.
  - intros Hrows Hlen.
    destruct (argmax_axis1_defined Hrows) as (js & Hjs & Hall).
    pose proof (Forall2_same_length Hall) as Hl.
    unfold compute_metrics. rewrite Hjs. simpl. unfold accuracy_score_compute.
    replace (length js =? length labels)%nat with false; [reflexivity|].
    symmetry. apply Nat.eqb_neq. congruence.
Qed.

(* ================================================================= *)
(** ** The benchmark arithmetic *)

(** X14: with fewer parameters in the student than in the teacher the
    printed [decrease] is negative, between -100 and 0, while a student
    faster than the teacher gives a positive [decrease_in_time], at
    most 100: the two cells have opposite sign conventions, and
    [decrease] is the negated [decrease_in_time] of the same numbers.  A
    teacher of zero parameters is a [ZeroDivisionError]. *)
Theorem benchmark_sign_conventions :
  (forall s t, (0 <= s < t)%Z ->
      exists d, decrease s t = Ok d /\ -100 <= d < 0 /\
                decrease_in_time (IZR t) (IZR s) = Ok (- d)) /\
  (forall tt ts, 0 <= ts < tt ->
      exists d, decrease_in_time tt ts = Ok d /\ 0 < d <= 100) /\
  (forall s, decrease s 0 = Raise (OtherError "ZeroDivisionError: division by zero")).
Proof.
  split; [|split].
  - intros s t [Hs Ht].
    assert (Hs' : 0 <= IZR s) by (now apply IZR_le).
    assert (Ht' : IZR s < IZR t) by (now apply IZR_lt).
    unfold decrease, decrease_in_time, py_div.
    destruct (Req_dec_T (IZR t) 0) as [E|E]; [lra|]. simpl.
    eexists. split; [reflexivity|]. rewrite minus_IZR. split.
    + assert (H : (IZR s - IZR t) / IZR t * 100 = (IZR s / IZR t) * 100 - 100)
        by (field; assumption).
      rewrite H.
      assert (0 <= IZR s / IZR t < 1).
      { split.
        - apply Rmult_le_pos; [assumption|]. apply Rlt_le, Rinv_0_lt_compat. lra.
        - apply Rmult_lt_reg_r with (IZR t); [lra|].
          unfold Rdiv. rewrite Rmult_assoc, Rinv_l by assumption. lra. }
      lra.
    + f_equal. field. assumption.
  - intros tt ts [Hs Ht].
    unfold decrease_in_time, py_div.
    destruct (Req_dec_T tt 0) as [E|E]; [lra|]. simpl.
    eexists. split; [reflexivity|].
    assert (H : (tt - ts) / tt * 100 = 100 - (ts / tt) * 100) by (field; assumption).
    rewrite H.
    assert (0 <= ts / tt < 1).
    { split.
      - apply Rmult_le_pos; [assumption|]. apply Rlt_le, Rinv_0_lt_compat. lra.
      - apply Rmult_lt_reg_r with tt; [lra|].
        unfold Rdiv. rewrite Rmult_assoc, Rinv_l by assumption. lra. }
    lra.
  - intros s. unfold decrease, py_div.
    destruct (Req_dec_T 0 0); [reflexivity|contradiction].
Qed.

(* ================================================================= *)
(** ** The further properties on sample data *)


Lemma sharp_rows_nonempty : Forall (fun row : list R => row <> []) sharp_logits.
Proof. repeat constructor; discriminate. Qed.

Lemma forward_errors_propagate_witness :
  compute_loss (sample_trainer 0.5 2 peaked_logits)
               (failing_network (OtherError "KeyError: 'input_ids'"))
               sample_batch false sample_world =
    (Raise (OtherError "KeyError: 'input_ids'"),
     {| student := sample_state; teacher := sample_state; generator := 43%Z |}) /\
  compute_loss (KnowledgeDistillationTrainer_init (sample_args 0.5 2)
                  (Some (Some (failing_network (RuntimeError "CUDA out of memory")))))
               (fixed_classifier uniform_logits)
               sample_batch false sample_world =
    (Raise (RuntimeError "CUDA out of memory"),
     {| student := sample_state_after; teacher := sample_state; generator := 44%Z |}).
Proof.
  split.
  - apply (proj1 (@forward_errors_propagate (sample_trainer 0.5 2 peaked_logits)
                    (failing_network (OtherError "KeyError: 'input_ids'"))
                    sample_batch false sample_world)).
    reflexivity.
  - apply (proj2 (@forward_errors_propagate
                    (KnowledgeDistillationTrainer_init (sample_args 0.5 2)
                       (Some (Some (failing_network (RuntimeError "CUDA out of memory")))))
                    (fixed_classifier uniform_logits)
                    sample_batch false sample_world)
             (failing_network (RuntimeError "CUDA out of memory"))
             (sample_outputs uniform_logits sample_batch)
             sample_state_after 43%Z (RuntimeError "CUDA out of memory")
             sample_state 44%Z); reflexivity.
Defined.



Lemma notebook_run_ignores_teacher_witness :
  exists cfg,
    student_training_args = Ok cfg /\
    loss_of (fst (compute_loss (distilbert_trainer cfg (fixed_classifier peaked_logits))
                               (fixed_classifier uniform_logits)
                               sample_batch false sample_world)) =
    Ok (Fin (cross_entropy uniform_logits [2%Z])).
Proof.
  destruct notebook_run_ignores_teacher as (cfg & Hcfg & _ & _ & Hloss).
  exists cfg. split; [exact Hcfg|].
  apply (Hloss (fixed_classifier peaked_logits) (fixed_classifier uniform_logits)
           sample_batch false sample_world
           (sample_outputs uniform_logits sample_batch)
           (sample_outputs peaked_logits sample_batch)
           sample_world_after).
  - exists (fixed_classifier peaked_logits), sample_state_after, 43%Z,
           sample_state_after, 44%Z.
    repeat split; reflexivity.
  - reflexivity.
  - exact uniform_peaked_same_shape.
  - exact uniform_nonempty.
Defined.

Lemma predictions_are_first_maxima_witness :
  exists js,
    argmax_axis1 sharp_logits = Ok js /\
    Forall2 (fun row j =>
               (j < length row)%nat /\
               (forall m, (m < length row)%nat -> nth m row 0 <= nth j row 0) /\
               (forall m, (m < j)%nat -> nth m row 0 < nth j row 0))
            sharp_logits js.
Proof.
  apply (@predictions_are_first_maxima sharp_logits). exact sharp_rows_nonempty.
Defined.

Lemma accuracy_range_and_perfect_witness :
  exists js a,
    argmax_axis1 sharp_logits = Ok js /\
    compute_metrics (sharp_logits, [1; 0]%Z) = Ok [("accuracy"%string, Fin a)] /\
    0 <= a <= 1 /\
    (a = 1 <-> Forall2 (fun j l => Z.of_nat j = l) js [1; 0]%Z).
Proof.
  apply (@accuracy_range_and_perfect sharp_logits [1; 0]%Z).
  - discriminate.
  - exact sharp_rows_nonempty.
  - repeat constructor; simpl; lia.
  - reflexivity.
  - repeat constructor.
Defined.

Lemma compute_metrics_value_errors_witness :
  compute_metrics ([[1; 3; 2]; []], [1; 0]%Z) =
    Raise (OtherError "ValueError: attempt to get argmax of an empty sequence") /\
  compute_metrics (sharp_logits, [1]%Z) =
    Raise (OtherError "ValueError: Mismatch in the number of predictions and references").
Proof.
  split.
  - apply (proj1 (@compute_metrics_value_errors [[1; 3; 2]; []] [1; 0]%Z)).
    right. left. reflexivity.
  - apply (proj2 (@compute_metrics_value_errors sharp_logits [1]%Z)).
    + exact sharp_rows_nonempty.
    + discriminate.
Defined.

Lemma benchmark_sign_conventions_witness :
  (exists d, decrease 66955010 109598359 = Ok d /\ -100 <= d < 0 /\
             decrease_in_time (IZR 109598359) (IZR 66955010) = Ok (- d)) /\
  (exists d, decrease_in_time 10 4 = Ok d /\ 0 < d <= 100).
Proof.
  destruct benchmark_sign_conventions as (Hparams & Htime & _).
  split.
  - apply (Hparams 66955010 109598359)%Z. lia.
  - apply (Htime 10 4). lra.
Defined.

(* ================================================================= *)
(** ** Broadcast sizes and the student's weights *)

Lemma expand_one {A} (ys : list A) : expand ys 1 = ys.
Proof. destruct ys as [|y [|y' ys]]; reflexivity. Qed.

Lemma zip_with_repeat {A B C} (f : A -> B -> C) x ys :
  zip_with (fun a b => Ok (f a b)) (repeat x (length ys)) ys = Ok (map (f x) ys).
Proof.
  induction ys as [|y ys IH]; [reflexivity|].
  simpl. rewrite IH. reflexivity.
Qed.

Lemma broadcast_singleton_l {A B C} (f : A -> B -> C) x ys :
  broadcast (fun a b => Ok (f a b)) [x] ys = Ok (map (f x) ys).
Proof.
  unfold broadcast. rewrite expand_one. simpl expand. apply zip_with_repeat.
Qed.

Lemma broadcast2_single_column f (p : scalar) (n : list (list R)) (b : Tensor) :
  length n = length b ->
  broadcast2 f (map (fun _ => [p]) n) b = Ok (map (map (f p)) b).
Proof.
  intros Hlen. unfold broadcast2.
  rewrite (broadcast_ok _ (fun (_ : list scalar) r => map (f p) r)).
  - f_equal. revert b Hlen. induction n as [|r n IH]; intros [|r' b] Hlen;
      simpl in Hlen; try discriminate; [reflexivity|].
    simpl map. rewrite map2_cons, IH by congruence. reflexivity.
  - revert b Hlen. induction n as [|r n IH]; intros [|r' b] Hlen;
      simpl in Hlen; try discriminate; constructor.
    + apply broadcast_singleton_l.
    + apply IH. congruence.
Qed.

Lemma softmax_R_single rows T :
  Forall (fun r : list R => length r = 1%nat) rows ->
  map softmax_R (map (map (fun x => x / T)) rows) = map (fun _ => [1]) rows.
Proof.
  induction 1 as [|r rows Hr _ IH]; [reflexivity|].
  simpl. rewrite IH. f_equal.
  destruct r as [|x [|y r]]; simpl in Hr; try discriminate.
  unfold softmax_R, sum_exp, Rsum. simpl. f_equal.
  pose proof (exp_pos (x / T)). field. lra.
Qed.

(** The divergence when the teacher has one logit per example. *)
Lemma divergence_single_column T ls lt :
  T <> 0 -> length ls = length lt ->
  Forall (fun r : list R => length r = 1%nat) lt ->
  distillation_divergence T ls lt =
  Ok (fdiv (Fin (Rsum (map (fun r => Rsum (map Ropp (log_softmax_R (map (fun x => x / T) r))))
                           ls)))
           (Fin (INR (length ls)))).
Proof.
  intros HT Hlen Hone. unfold distillation_divergence.
  rewrite !(tensor_div_fin HT), softmax_fin, log_softmax_fin, (softmax_R_single T Hone).
  set (X := map log_softmax_R (map (map (fun x => x / T)) ls)).
  assert (HX : length lt = length (of_reals X))
    by (unfold X, of_reals; rewrite !length_map; auto).
  replace (of_reals (map (fun _ => [1]) lt)) with (map (fun _ : list R => [Fin 1]) lt)
    by (unfold of_reals; rewrite map_map; reflexivity).
  unfold nn.KLDivLoss_batchmean.
  rewrite broadcast2_single_column by exact HX. unfold outcome_bind at 1.
  rewrite map_map.
  change (map (fun _ : list R => map (fun t => xlogy t t) [Fin 1]) lt)
    with (map (fun _ : list R => [xlogy (Fin 1) (Fin 1)]) lt).
  rewrite broadcast2_single_column by (rewrite length_map; exact HX).
  unfold outcome_bind. rewrite xlogy_fin by lra. do 2 f_equal.
  - replace (map (map (fsub (Fin (1 * ln 1)))) (map (map (fmul (Fin 1))) (of_reals X)))
      with (of_reals (map (map Ropp) X)).
    + rewrite tensor_sum_fin. unfold X. rewrite !map_map. reflexivity.
    + unfold of_reals. rewrite !map_map. apply map_ext. intros r.
      rewrite !map_map. apply map_ext. intros x. simpl. rewrite ln_1. f_equal. ring.
  - unfold of_reals, X. now rewrite !length_map.
Qed.

(** X15: a teacher with a single logit per example is not rejected:
    its sizes broadcast against the student's classes, and for a
    non-zero temperature on a non-empty batch the loss step returns a
    finite loss, whose divergence term is the mean over the batch of
    the summed negated log-probabilities of the student. *)
Theorem single_logit_teacher_broadcasts self model inputs return_outputs w os ot w' L_ce :
  forward_passes self model inputs w os ot w' ->
  loss os = Some L_ce ->
  temperature (args self) <> 0 ->
  length (logits os) = length (logits ot) ->
  logits os <> [] ->
  Forall (fun r : list R => length r = 1%nat) (logits ot) ->
  let T := temperature (args self) in
  let d := Rsum (map (fun r => Rsum (map Ropp (log_softmax_R (map (fun x => x / T) r))))
                     (logits os)) / INR (length (logits os)) in
  distillation_divergence T (logits os) (logits ot) = Ok (Fin d) /\
  loss_of (fst (compute_loss self model inputs return_outputs w)) =
    Ok (Fin (alpha (args self) * L_ce + (1 - alpha (args self)) * T ^ 2 * d)).
Proof.
  intros Hfw HL HT Hlen Hne Hone T d.
  assert (HD : distillation_divergence T (logits os) (logits ot) = Ok (Fin d)).
  { unfold T, d. rewrite (divergence_single_column (logits os) HT Hlen Hone).
    rewrite fdiv_fin; [reflexivity|].
    pose proof (INR_length_pos Hne). lra. }
  split; [exact HD|].
  rewrite (compute_loss_run _ Hfw). fold T. rewrite HD, HL.
  destruct return_outputs; reflexivity.
Qed.

(** X17: the loss step never writes to the student's weights either:
    when the student's forward pass does not, the student's parameters
    after the step are those before it, whether the step returns a loss
    or raises. *)
Theorem student_parameters_unchanged self model inputs return_outputs w :
  preserves_parameters model ->
  parameters (student (snd (compute_loss self model inputs return_outputs w))) =
  parameters (student w).
Proof.
  intros Hpres.
  unfold compute_loss, bind, call_student, call_teacher, lift, ret, raise.
  specialize (Hpres (student w) (generator w) inputs).
  destruct (model (student w) (generator w) inputs) as [[r s] g]. simpl in Hpres.
  destruct r as [os|e]; [|exact Hpres].
  destruct (teacher_model self) as [tm|]; [|exact Hpres].
  simpl. destruct (tm (teacher w) g inputs) as [[q t] h].
  destruct q as [ot|e]; [|exact Hpres].
  destruct (nn.KLDivLoss_batchmean _ _) as [D|e]; [|exact Hpres].
  destruct (mul_optional _ _) as [x|e]; exact Hpres.
Qed.

Lemma single_logit_teacher_broadcasts_witness :
  let d := Rsum (map (fun r => Rsum (map Ropp (log_softmax_R (map (fun x => x / 2) r))))
                     uniform_logits) / INR 1 in
  distillation_divergence 2 uniform_logits single_logit = Ok (Fin d) /\
  loss_of (fst (compute_loss (sample_trainer 0.5 2 single_logit)
                             (fixed_classifier uniform_logits)
                             sample_batch false sample_world)) =
    Ok (Fin (0.5 * cross_entropy uniform_logits [2%Z] + (1 - 0.5) * 2 ^ 2 * d)).
Proof.
  apply (@single_logit_teacher_broadcasts (sample_trainer 0.5 2 single_logit)
           (fixed_classifier uniform_logits) sample_batch false sample_world
           (sample_outputs uniform_logits sample_batch)
           (sample_outputs single_logit sample_batch)
           sample_world_after (cross_entropy uniform_logits [2%Z])).
  - apply sample_forward_passes.
  - reflexivity.
  - exact two_nonzero.
  - reflexivity.
  - exact uniform_nonempty.
  - repeat constructor.
Defined.

Lemma student_parameters_unchanged_witness :
  parameters (student (snd (compute_loss (sample_trainer 0.5 2 peaked_logits)
                                         (fixed_classifier uniform_logits)
                                         sample_batch false sample_world))) =
  parameters (student sample_world).
Proof.
  apply (@student_parameters_unchanged (sample_trainer 0.5 2 peaked_logits)
           (fixed_classifier uniform_logits) sample_batch false sample_world).
  apply fixed_classifier_preserves_parameters.
Defined.
